(** * Plan13: satellite and Sun position prediction (Plan13.cpp)

    A shallow embedding of [Plan13.cpp].  Conventions of the model:

    - a C [double] or [float] is a real number and the arithmetic on it is
      exact: rounding, overflow, infinities and NaN are outside the model,
      and what is proved of it is to be read up to rounding.  Where rounding
      decides the outcome (a cast next to a whole number, a sum that absorbs
      its small term, a NaN), the statements of the source are transcribed a
      second time, on binary64 numbers, in the module [Binary64];
    - a C [int] or [long] is an integer of [Z]: integer overflow is outside
      the model;
    - a cast [(long) x] or [(int) x] of a double truncates toward zero;
    - [M_PI] is [PI];
    - a loop without a bound runs on fuel and returns [None] when the fuel
      runs out; a function whose outputs are NaN returns [None];
    - the constants of [Plan13.h] (RE, FL, GM, J2, YM, YT, WW, WE, W0, YG, G0,
      MAS0, MASD, INS, CNS, SNS, EQC1, EQC2) are not among the sources: each
      function takes the ones it reads as parameters. *)

From Stdlib Require Import Reals ZArith Lra Lia List Bool Ascii String.
From Stdlib Require Import Zfloor.
From Stdlib Require Import RNsatz.
From Stdlib Require Import DecimalString.
From Stdlib Require Floats.
Import ListNotations.

Open Scope R_scope.

(** ** Casts from double to integer *)

(** [(long) x] for a double [x]: the fractional part is discarded, so the
    value is rounded toward zero. *)
Definition to_long (x : R) : Z :=
  if Rlt_dec x 0 then Zceil x else Zfloor x.

(** [(int) x]. *)
Definition to_int (x : R) : Z := to_long x.

(** [fmod (x, y)] of the C library: [x - n * y] where [n] is [x / y] with the
    fractional part discarded. *)
Definition fmod (x y : R) : R := x - IZR (to_long (x / y)) * y.

(** [RADIANS] and [DEGREES]. *)
Definition RADIANS (deg : R) : R := deg * PI / 180.
Definition DEGREES (rad : R) : R := rad * 180 / PI.

(** ** class DateTime *)

Module DateTime.

Record t : Type := mk { DN : Z; TN : R }.

Section WithHeader.

Variable YM : R.

(** [fnday]: date to day number. *)
Definition fnday (y m d : Z) : Z :=
  let '(m, y) := if (m <? 3)%Z then (m + 12, y - 1)%Z else (m, y) in
  (to_long (IZR y * YM) + to_long (IZR (m + 1) * 30.6) + d - 428)%Z.

(** [settime]. *)
Definition settime (year month day h m s : Z) : t :=
  {| DN := fnday year month day;
     TN := (IZR h + IZR m / 60 + IZR s / 3600) / 24 |}.

End WithHeader.

(** [fndate]: day number to date [(y, m, d)]. *)
Definition fndate (dt : Z) : Z * Z * Z :=
  let dt := (dt + 428)%Z in
  let y := to_int ((IZR dt - 122.1) / 365.25) in
  let dt := (dt - to_long (IZR y * 365.25))%Z in
  let m := to_int (IZR dt / 30.61) in
  let dt := (dt - to_long (IZR m * 30.6))%Z in
  let m := (m - 1)%Z in
  let '(m, y) := if (12 <? m)%Z then (m - 12, y + 1)%Z else (m, y) in
  (y, m, dt).

(** The time of day read back by [gettime]: [(h, m, s)].  With exact
    products the casts leave the whole seconds of the time of day; on
    doubles a product is rounded and a cast can fall on the other side of a
    whole second ([Binary64.gettime_hms] is the same text on doubles). *)
Definition gettime_hms (TN : R) : Z * Z * Z :=
  let t := TN * 24 in
  let h := to_int t in
  let t := (t - IZR h) * 60 in
  let m := to_int t in
  let t := (t - IZR m) * 60 in
  let s := to_int t in
  (h, m, s).

(** [gettime]: [(year, month, day, h, m, s)]. *)
Definition gettime (dt : t) : Z * Z * Z * Z * Z * Z :=
  let '(year, month, day) := fndate (DN dt) in
  let '(h, m, s) := gettime_hms (TN dt) in
  (year, month, day, h, m, s).

(** [add].  The sum is exact here; on doubles a step below half a unit in
    the last place of [TN] is absorbed by it ([Binary64.add]). *)
Definition add (dt : t) (days : R) : t :=
  let TN1 := TN dt + days in
  let DN1 := (DN dt + to_long TN1)%Z in
  {| DN := DN1; TN := TN1 - IZR (to_long TN1) |}.

(** [roundup].  [fmod] and the sum are exact here; on doubles the increment
    can be absorbed by the sum, and the [DateTime] then stays where it
    was. *)
Definition roundup (dt : t) (tt : R) : t :=
  let inc := tt - fmod (TN dt) tt in
  let TN1 := TN dt + inc in
  let DN1 := (DN dt + to_long TN1)%Z in
  {| DN := DN1; TN := TN1 - IZR (to_long TN1) |}.

End DateTime.

(** ** Vectors *)

(** [Vec3]: an array of three doubles. *)
Record Vec3 : Type := vec { v0 : R; v1 : R; v2 : R }.

Definition dot (a b : Vec3) : R :=
  v0 a * v0 b + v1 a * v1 b + v2 a * v2 b.

Definition norm (a : Vec3) : R := sqrt (dot a a).

Definition zero_vec : Vec3 := vec 0 0 0.

(** ** Functions of the C library *)

(** [atan2 (y, x)]: the angle of the point [(x, y)], in the interval from
    [- PI] to [PI]. *)
Definition atan2 (y x : R) : R :=
  if Rlt_dec 0 x then atan (y / x)
  else if Rlt_dec x 0 then
    if Rle_dec 0 y then atan (y / x) + PI else atan (y / x) - PI
  else if Rlt_dec 0 y then PI / 2
  else if Rlt_dec y 0 then - PI / 2
  else 0.

(** [pow (x, y)] for a positive base. *)
Definition pow (x y : R) : R := Rpower x y.

Definition isspace (c : ascii) : bool :=
  let n := N_of_ascii c in
  (n =? 32)%N || ((9 <=? n)%N && (n <=? 13)%N).

Definition digit (c : ascii) : option Z :=
  let n := Z.of_N (N_of_ascii c) in
  if ((48 <=? n) && (n <=? 57))%Z then Some (n - 48)%Z else None.

Fixpoint skip_space (s : string) : string :=
  match s with
  | String c s' => if isspace c then skip_space s' else s
  | EmptyString => s
  end.

(** An optional sign: [true] for a minus. *)
Definition read_sign (s : string) : bool * string :=
  match s with
  | String "-" s' => (true, s')
  | String "+" s' => (false, s')
  | _ => (false, s)
  end.

(** The longest run of decimal digits at the head of [s], accumulated onto
    [acc]: the value, the number of digits read and the rest. *)
Fixpoint read_digits (acc : Z) (n : Z) (s : string) : Z * Z * string :=
  match s with
  | String c s' =>
      match digit c with
      | Some d => read_digits (10 * acc + d) (n + 1) s'
      | None => (acc, n, s)
      end
  | EmptyString => (acc, n, s)
  end.

(** [atol]: white space, an optional sign, decimal digits; [0] when no digit
    follows. *)
Definition atol (s : string) : Z :=
  let '(neg, s) := read_sign (skip_space s) in
  let '(v, _, _) := read_digits 0 0 s in
  if neg then (- v)%Z else v.

(** The exponent part of a decimal floating constant: [e] or [E], an optional
    sign and at least one digit; [0] when that is not what follows. *)
Definition read_exponent (s : string) : Z :=
  match s with
  | String c s' =>
      if (c =? "e")%char || (c =? "E")%char then
        let '(neg, s'') := read_sign s' in
        let '(v, n, _) := read_digits 0 0 s'' in
        if (n =? 0)%Z then 0%Z else if neg then (- v)%Z else v
      else 0%Z
  | EmptyString => 0%Z
  end.

(** [strtod (s, NULL)] on decimal text: white space, an optional sign, digits
    with an optional point, an optional exponent; [0] when no conversion can
    be performed.  The spellings of infinity and NaN and the hexadecimal
    constants, which [strtod] converts too, have no value in this model. *)
Definition strtod (s : string) : R :=
  let '(neg, s) := read_sign (skip_space s) in
  let '(ip, ni, s) := read_digits 0 0 s in
  let '(mant, nf, s) :=
    match s with
    | String "." s' => read_digits ip 0 s'
    | _ => (ip, 0%Z, s)
    end in
  if (ni + nf =? 0)%Z then 0
  else
    let v := IZR mant * powerRZ 10 (read_exponent s - nf) in
    if neg then - v else v.

(** ** class Observer *)

Module Observer.

Record t : Type := mk {
  name : string;
  LA : R; LO : R; HT : R;
  U : Vec3; E : Vec3; N : Vec3; O : Vec3; V : Vec3
}.

Section WithHeader.

Variables RE FL W0 : R.

(** The constructor [Observer::Observer]. *)
Definition make (nm : string) (lat lng hgt : R) : t :=
  let LA := RADIANS lat in
  let LO := RADIANS lng in
  let HT := hgt / 1000 in
  let U := vec (cos LA * cos LO) (cos LA * sin LO) (sin LA) in
  let E := vec (- sin LO) (cos LO) 0 in
  let N := vec (- sin LA * cos LO) (- sin LA * sin LO) (cos LA) in
  let RP := RE * (1 - FL) in
  let XX := RE * RE in
  let ZZ := RP * RP in
  let D := sqrt (XX * cos LA * cos LA + ZZ * sin LA * sin LA) in
  let Rx := XX / D + HT in
  let Rz := ZZ / D + HT in
  let O := vec (Rx * v0 U) (Rx * v1 U) (Rz * v2 U) in
  let V := vec (- v1 O * W0) (v0 O * W0) 0 in
  {| name := nm; LA := LA; LO := LO; HT := HT;
     U := U; E := E; N := N; O := O; V := V |}.

End WithHeader.

End Observer.

(** ** The look angles shared by [Satellite::altaz] and [Sun::altaz] *)

(** The line of sight from the observer to the point [P]. *)
Definition line_of_sight (P : Vec3) (obs : Observer.t) : Vec3 :=
  vec (v0 P - v0 (Observer.O obs))
      (v1 P - v1 (Observer.O obs))
      (v2 P - v2 (Observer.O obs)).

(** ** class Satellite *)

(** [getdouble] and [getlong]: the characters [i0 .. i1 - 1] of the line are
    copied to a buffer that is then converted. *)
Definition getdouble (c : string) (i0 i1 : nat) : R :=
  strtod (substring i0 (i1 - i0) c).

Definition getlong (c : string) (i0 i1 : nat) : Z :=
  atol (substring i0 (i1 - i0) c).

Module Satellite.

(** The orbital elements and the quantities derived from them by [tle]. *)
Record t : Type := mk {
  name : string;
  N : Z; YE : Z; DE : Z; TE : R;
  IN : R; RA : R; EC : R; WP : R; MA : R; MM : R; M2 : R; RV : Z;
  N0 : R; A_0 : R; B_0 : R; PC : R; QD : R; WD : R; DC : R
}.

(** What the loop of [predict] leaves behind: the eccentric anomaly after the
    last correction, and [DNOM], [C_EA], [S_EA] of the last pass. *)
Record kepler_t : Type := mk_kepler {
  k_EA : R; k_DNOM : R; k_C_EA : R; k_S_EA : R
}.

(** The loop [for (;;) { ... if (fabs(D) < 1e-5) break ; }] of [predict],
    run for at most [fuel] passes: [None] when the fuel runs out first. *)
Fixpoint kepler (fuel : nat) (EC M EA : R) : option kepler_t :=
  match fuel with
  | O => None
  | S fuel' =>
      let C_EA := cos EA in
      let S_EA := sin EA in
      let DNOM := 1 - EC * C_EA in
      let D := (EA - EC * S_EA - M) / DNOM in
      let EA := EA - D in
      if Rlt_dec (Rabs D) 1e-5
      then Some (mk_kepler EA DNOM C_EA S_EA)
      else kepler fuel' EC M EA
  end.

(** Kepler's equation [EA - EC * sin EA = M]: the left side minus the
    right. *)
Definition residual (EC M EA : R) : R := EA - EC * sin EA - M.

(** The correction [D] that a pass of the loop computes at [EA]. *)
Definition correction (EC M EA : R) : R :=
  (EA - EC * sin EA - M) / (1 - EC * cos EA).

(** The loop started at [EA] reaches its [break]. *)
Definition halts (EC M EA : R) : Prop :=
  exists (fuel : nat) (k : kepler_t), kepler fuel EC M EA = Some k.

(** The mean anomaly of [predict] before whole revolutions are removed. *)
Definition mean_anomaly (sat : t) (dt : DateTime.t) : R :=
  let T := IZR (DateTime.DN dt - DE sat) + (DateTime.TN dt - TE sat) in
  let DT := DC sat * T / 2 in
  MA sat + MM sat * T * (1 - 3 * DT).

(** [DR = (long) (M / (2. * M_PI)) ; M -= DR * 2. * M_PI]: the revolutions
    removed and the mean anomaly left.  The quotient is exact here; on
    doubles it can round up to a whole number, [DR] is then one more and
    the mean anomaly left has the other sign ([Binary64.wrap]). *)
Definition wrap (M : R) : Z * R :=
  let DR := to_long (M / (2 * PI)) in
  (DR, M - IZR DR * 2 * PI).

(** The state written by [predict]. *)
Record state : Type := mk_state {
  SAT : Vec3; VEL : Vec3; S : Vec3; V : Vec3; RS : R
}.

Section WithHeader.

Variables GM RE J2 YM YG G0 WE WW MAS0 MASD : R.

(** [Satellite::tle].  A zero divisor (a mean motion of zero, an
    eccentricity of one) makes the C code store an infinity or a NaN in the
    derived quantities without any signal; here the quotient is the one of
    the reals and the derived quantity has no meaning ([Binary64.tle] keeps
    the infinity that [DC] is for a mean motion of zero). *)
Definition tle (nm l1 l2 : string) : t :=
  let N := getlong l2 2 7 in
  let YE := getlong l1 18 20 in
  let YE := if (YE <? 58)%Z then (YE + 2000)%Z else (YE + 1900)%Z in
  let TE := getdouble l1 20 32 in
  let M2 := 2 * PI * getdouble l1 33 43 in
  let IN := RADIANS (getdouble l2 8 16) in
  let RA := RADIANS (getdouble l2 17 25) in
  let EC := getdouble l2 26 33 / 1e7 in
  let WP := RADIANS (getdouble l2 34 42) in
  let MA := RADIANS (getdouble l2 43 51) in
  let MM := 2 * PI * getdouble l2 52 63 in
  let RV := getlong l2 63 68 in
  let DE := (DateTime.fnday YM YE 1 0 + to_long TE)%Z in
  let TE := TE - IZR (to_long TE) in
  let N0 := MM / 86400 in
  let A_0 := pow (GM / (N0 * N0)) (1 / 3) in
  let B_0 := A_0 * sqrt (1 - EC * EC) in
  let PC := RE * A_0 / (B_0 * B_0) in
  let PC := 1.5 * J2 * PC * PC * MM in
  let CI := cos IN in
  let QD := - PC * CI in
  let WD := PC * (5 * CI * CI - 1) / 2 in
  let DC := - 2 * M2 / (3 * MM) in
  {| name := nm; N := N; YE := YE; DE := DE; TE := TE;
     IN := IN; RA := RA; EC := EC; WP := WP; MA := MA; MM := MM; M2 := M2;
     RV := RV;
     N0 := N0; A_0 := A_0; B_0 := B_0; PC := PC; QD := QD; WD := WD;
     DC := DC |}.

(** [Satellite::predict], the loop run with [fuel].  The fields of the
    element set are real numbers here: a mean anomaly that is not a number,
    as a mean motion of zero gives, has no counterpart, and the loop on
    doubles ([Binary64.kepler]) never ends on it.  [TEG], [GHAE], [MRSE] and
    [MASE] are C [float] in the source, of less precision than the doubles
    around them; here they are reals as the rest. *)
Definition predict (fuel : nat) (sat : t) (dt : DateTime.t) : option state :=
  let DN := DateTime.DN dt in
  let TN := DateTime.TN dt in
  let TEG := IZR (DE sat - DateTime.fnday YM (to_int YG) 1 0) + TE sat in
  let GHAE := RADIANS G0 + TEG * WE in
  let MRSE := RADIANS G0 + TEG * WW + PI in
  let MASE := RADIANS (MAS0 + TEG * MASD) in
  let T := IZR (DN - DE sat) + (TN - TE sat) in
  let DT := DC sat * T / 2 in
  let KD := 1 + 4 * DT in
  let KDP := 1 - 7 * DT in
  let M := mean_anomaly sat dt in
  let '(DR, M) := wrap M in
  let RN := IZR (RV sat) + IZR DR in
  match kepler fuel (EC sat) M M with
  | None => None
  | Some k =>
      let C_EA := k_C_EA k in
      let S_EA := k_S_EA k in
      let DNOM := k_DNOM k in
      let A := A_0 sat * KD in
      let B := B_0 sat * KD in
      let RS := A * DNOM in
      let Sx := A * (C_EA - EC sat) in
      let Sy := B * S_EA in
      let Vx := - A * S_EA / DNOM * N0 sat in
      let Vy := B * C_EA / DNOM * N0 sat in
      let AP := WP sat + WD sat * T * KDP in
      let CW := cos AP in
      let SW := sin AP in
      let RAAN := RA sat + QD sat * T * KDP in
      let CQ := cos RAAN in
      let SQ := sin RAAN in
      let CI := cos (IN sat) in
      let SI := sin (IN sat) in
      let CX := vec (CW * CQ - SW * CI * SQ) (- SW * CQ - CW * CI * SQ)
                    (SI * SQ) in
      let CY := vec (CW * SQ + SW * CI * CQ) (- SW * SQ + CW * CI * CQ)
                    (- SI * CQ) in
      let CZ := vec (SW * SI) (CW * SI) CI in
      let SAT := vec (Sx * v0 CX + Sy * v1 CX) (Sx * v0 CY + Sy * v1 CY)
                     (Sx * v0 CZ + Sy * v1 CZ) in
      let VEL := vec (Vx * v0 CX + Vy * v1 CX) (Vx * v0 CY + Vy * v1 CY)
                     (Vx * v0 CZ + Vy * v1 CZ) in
      let GHAA := GHAE + WE * T in
      let CG := cos (- GHAA) in
      let SG := sin (- GHAA) in
      let S := vec (v0 SAT * CG - v1 SAT * SG) (v0 SAT * SG + v1 SAT * CG)
                   (v2 SAT) in
      let V := vec (v0 VEL * CG - v1 VEL * SG) (v0 VEL * SG + v1 VEL * CG)
                   (v2 VEL) in
      Some {| SAT := SAT; VEL := VEL; S := S; V := V; RS := RS |}
  end.

End WithHeader.

(** [Satellite::LL]: [(lat, lng)].  The arc sine is total here; on doubles
    the quotient [S[2] / RS] can exceed 1 by a rounding and the latitude is
    then a NaN. *)
Definition LL (st : state) : R * R :=
  (DEGREES (asin (v2 (S st) / RS st)),
   DEGREES (atan2 (v1 (S st)) (v0 (S st)))).

(** [Satellite::altaz]: [(alt, az)].  When the range [r] is zero the three
    divisions [R[i] /= r] are [0 / 0]: every later value, [alt] and [az]
    included, is a NaN, and the result is [None].  On doubles two more
    things happen that exact arithmetic does not show: the projection [u]
    can exceed 1 by a rounding, the altitude being then a NaN, and
    [az += 360.] can round to 360 ([Binary64.altaz]). *)
Definition altaz (st : state) (obs : Observer.t) : option (R * R) :=
  let R0 := v0 (S st) - v0 (Observer.O obs) in
  let R1 := v1 (S st) - v1 (Observer.O obs) in
  let R2 := v2 (S st) - v2 (Observer.O obs) in
  let r := sqrt (R0 * R0 + R1 * R1 + R2 * R2) in
  if Req_dec_T r 0 then None
  else
    let R0 := R0 / r in
    let R1 := R1 / r in
    let R2 := R2 / r in
    let u := R0 * v0 (Observer.U obs) + R1 * v1 (Observer.U obs)
             + R2 * v2 (Observer.U obs) in
    let e := R0 * v0 (Observer.E obs) + R1 * v1 (Observer.E obs)
             + R2 * v2 (Observer.E obs) in
    let n := R0 * v0 (Observer.N obs) + R1 * v1 (Observer.N obs)
             + R2 * v2 (Observer.N obs) in
    let az := DEGREES (atan2 e n) in
    let az := if Rlt_dec az 0 then az + 360 else az in
    let alt := DEGREES (asin u) in
    Some (alt, az).

End Satellite.

(** ** class Sun *)

Module Sun.

Record t : Type := mk { SUN : Vec3; H : Vec3 }.

Section WithHeader.

Variables YM YG G0 WE WW MAS0 MASD EQC1 EQC2 CNS SNS : R.

(** [Sun::predict]. *)
Definition predict (dt : DateTime.t) : t :=
  let DN := DateTime.DN dt in
  let TN := DateTime.TN dt in
  let T := IZR (DN - DateTime.fnday YM (to_int YG) 1 0) + TN in
  let GHAE := RADIANS G0 + T * WE in
  let MRSE := RADIANS G0 + T * WW + PI in
  let MASE := RADIANS (MAS0 + T * MASD) in
  let TAS := MRSE + EQC1 * sin MASE + EQC2 * sin (2 * MASE) in
  let C := cos TAS in
  let S := sin TAS in
  let SUN := vec C (S * CNS) (S * SNS) in
  let C := cos (- GHAE) in
  let S := sin (- GHAE) in
  let H := vec (v0 SUN * C - v1 SUN * S) (v0 SUN * S + v1 SUN * C)
               (v2 SUN) in
  {| SUN := SUN; H := H |}.

End WithHeader.

(** [Sun::LL]: [(lat, lng)]. *)
Definition LL (sun : t) : R * R :=
  (DEGREES (asin (v2 (H sun))), DEGREES (atan2 (v1 (H sun)) (v0 (H sun)))).

(** [Sun::altaz]: [(alt, az)]; [None] for the NaN of a zero range, as in
    [Satellite::altaz], and with the same two effects of rounding. *)
Definition altaz (sun : t) (obs : Observer.t) : option (R * R) :=
  let R0 := v0 (H sun) - v0 (Observer.O obs) in
  let R1 := v1 (H sun) - v1 (Observer.O obs) in
  let R2 := v2 (H sun) - v2 (Observer.O obs) in
  let r := sqrt (R0 * R0 + R1 * R1 + R2 * R2) in
  if Req_dec_T r 0 then None
  else
    let R0 := R0 / r in
    let R1 := R1 / r in
    let R2 := R2 / r in
    let u := R0 * v0 (Observer.U obs) + R1 * v1 (Observer.U obs)
             + R2 * v2 (Observer.U obs) in
    let e := R0 * v0 (Observer.E obs) + R1 * v1 (Observer.E obs)
             + R2 * v2 (Observer.E obs) in
    let n := R0 * v0 (Observer.N obs) + R1 * v1 (Observer.N obs)
             + R2 * v2 (Observer.N obs) in
    let az := DEGREES (atan2 e n) in
    let az := if Rlt_dec az 0 then az + 360 else az in
    let alt := DEGREES (asin u) in
    Some (alt, az).

End Sun.

(** ** The calendar on integers *)

Module Calendar.

(** [fnday] with [YM = 365.25] and [fndate], their casts written as integer
    quotients that round toward zero. *)
Definition fnday_quot (y m d : Z) : Z :=
  let '(m, y) := if (m <? 3)%Z then (m + 12, y - 1)%Z else (m, y) in
  (Z.quot (1461 * y) 4 + Z.quot (306 * (m + 1)) 10 + d - 428)%Z.

Definition fndate_quot (dt : Z) : Z * Z * Z :=
  let dt := (dt + 428)%Z in
  let y := Z.quot (20 * dt - 2442) 7305 in
  let dt := (dt - Z.quot (1461 * y) 4)%Z in
  let m := Z.quot (100 * dt) 3061 in
  let dt := (dt - Z.quot (306 * m) 10)%Z in
  let m := (m - 1)%Z in
  let '(m, y) := if (12 <? m)%Z then (m - 12, y + 1)%Z else (m, y) in
  (y, m, dt).

(** The Gregorian calendar. *)
Definition leap (y : Z) : bool :=
  ((y mod 4 =? 0) && (negb (y mod 100 =? 0) || (y mod 400 =? 0)))%Z.

Definition days_in_month (y m : Z) : Z :=
  if (m =? 2)%Z then (if leap y then 29 else 28)%Z
  else if ((m =? 4) || (m =? 6) || (m =? 9) || (m =? 11))%Z then 30%Z
  else 31%Z.

(** A date of the supported range, 1900 to 2100. *)
Definition valid_date (y m d : Z) : bool :=
  ((1900 <=? y) && (y <=? 2100) && (1 <=? m) && (m <=? 12)
   && (1 <=? d) && (d <=? days_in_month y m))%Z.

Definition valid_time (h m s : Z) : bool :=
  ((0 <=? h) && (h <=? 23) && (0 <=? m) && (m <=? 59)
   && (0 <=? s) && (s <=? 59))%Z.

(** The integers [lo, lo + 1, ..., lo + n - 1]. *)
Definition range (lo : Z) (n : nat) : list Z :=
  map (fun i => (lo + Z.of_nat i)%Z) (seq 0 n).

Definition date_ok (y m d : Z) : bool :=
  let '(y', m', d') := fndate_quot (fnday_quot y m d) in
  ((y' =? y) && (m' =? m) && (d' =? d))%Z.

(** The second of the day. *)
Definition second_of_day (h m s : Z) : Z := (3600 * h + 60 * m + s)%Z.

End Calendar.

(** ** The fields of an element set *)

Module Fields.

(** The fields that [tle] reads from the two lines. *)
Inductive field : Type :=
  | fN | fYE | fTE | fM2 | fIN | fRA | fEC | fWP | fMA | fMM | fRV.

(** The characters of the field, as [getlong] and [getdouble] copy them. *)
Definition text (f : field) (l1 l2 : string) : string :=
  match f with
  | fN => substring 2 (7 - 2) l2
  | fYE => substring 18 (20 - 18) l1
  | fTE => substring 20 (32 - 20) l1
  | fM2 => substring 33 (43 - 33) l1
  | fIN => substring 8 (16 - 8) l2
  | fRA => substring 17 (25 - 17) l2
  | fEC => substring 26 (33 - 26) l2
  | fWP => substring 34 (42 - 34) l2
  | fMA => substring 43 (51 - 43) l2
  | fMM => substring 52 (63 - 52) l2
  | fRV => substring 63 (68 - 63) l2
  end.

(** The fields converted by [getlong]; the others go through [getdouble]. *)
Definition is_long (f : field) : bool :=
  match f with
  | fN | fYE | fRV => true
  | _ => false
  end.

(** The number that [getlong] or [getdouble] returns for the field. *)
Definition parsed (f : field) (l1 l2 : string) : R :=
  match f with
  | fN => IZR (getlong l2 2 7)
  | fYE => IZR (getlong l1 18 20)
  | fTE => getdouble l1 20 32
  | fM2 => getdouble l1 33 43
  | fIN => getdouble l2 8 16
  | fRA => getdouble l2 17 25
  | fEC => getdouble l2 26 33
  | fWP => getdouble l2 34 42
  | fMA => getdouble l2 43 51
  | fMM => getdouble l2 52 63
  | fRV => IZR (getlong l2 63 68)
  end.

(** The member of the satellite that [tle] stores for the field. *)
Definition stored (f : field) (sat : Satellite.t) : R :=
  match f with
  | fN => IZR (Satellite.N sat)
  | fYE => IZR (Satellite.YE sat)
  | fTE => Satellite.TE sat
  | fM2 => Satellite.M2 sat
  | fIN => Satellite.IN sat
  | fRA => Satellite.RA sat
  | fEC => Satellite.EC sat
  | fWP => Satellite.WP sat
  | fMA => Satellite.MA sat
  | fMM => Satellite.MM sat
  | fRV => IZR (Satellite.RV sat)
  end.

Definition starts_with_digit (s : string) : bool :=
  match s with
  | String c _ => match digit c with Some _ => true | None => false end
  | EmptyString => false
  end.

Definition lower (c : ascii) : ascii :=
  let n := N_of_ascii c in
  if ((65 <=? n) && (n <=? 90))%N then ascii_of_N (n + 32) else c.

(** The text spells an infinity or a NaN: [inf] or [nan], in any case. *)
Definition starts_special (s : string) : bool :=
  match s with
  | String a (String b (String c _)) =>
      let w := String (lower a) (String (lower b) (String (lower c) "")) in
      (w =? "inf")%string || (w =? "nan")%string
  | _ => false
  end.

(** No integer can be read: after the white space and the sign comes no
    digit. *)
Definition no_integer (s : string) : bool :=
  negb (starts_with_digit (snd (read_sign (skip_space s)))).

(** No floating constant can be read: after the white space and the sign
    comes neither a digit, nor a point and a digit, nor an infinity or NaN. *)
Definition no_decimal (s : string) : bool :=
  let s' := snd (read_sign (skip_space s)) in
  negb (starts_with_digit s')
  && negb (match s' with
           | String "." s'' => starts_with_digit s''
           | _ => false
           end)
  && negb (starts_special s').

(** The field holds no parsable number. *)
Definition unparsable (f : field) (l1 l2 : string) : bool :=
  if is_long f then no_integer (text f l1 l2) else no_decimal (text f l1 l2).

End Fields.

(** ** Sample values *)

Module Sample.

(** [Plan13.h] is not among the sources.  [YG], [G0], [MAS0], [MASD], [EQC1],
    [EQC2] and [INS] are the values that the comment at the head of
    [Plan13.cpp] lists for 2014 onwards, [YM] is the Julian year that
    [fndate] inverts, [CNS] and [SNS] are the cosine and sine of the
    obliquity [INS], and the others are the constants of Plan-13. *)
Definition RE : R := 6378.137.
Definition FL : R := 1 / 298.257224.
Definition GM : R := 3.986e5.
Definition J2 : R := 1.08263e-3.
Definition YM : R := 365.25.
Definition YT : R := 365.2421874.
Definition WW : R := 2 * PI / YT.
Definition WE : R := 2 * PI + WW.
Definition W0 : R := WE / 86400.
Definition YG : R := 2014.
Definition G0 : R := 99.5828.
Definition MAS0 : R := 356.4105.
Definition MASD : R := 0.98560028.
Definition EQC1 : R := 0.03340.
Definition EQC2 : R := 0.00035.
Definition INS : R := RADIANS 23.4375.
Definition CNS : R := cos INS.
Definition SNS : R := sin INS.

(** An element set of the space station whose epoch year is not a number. *)
Definition line1 : string :=
  "1 25544U 98067A   XX045.18587073  .00000950  00000-0  25302-4 0  9990".
Definition line2 : string :=
  "2 25544  51.6443 242.0161 0004885 264.6060 207.3845 15.49165514212791".

(** A satellite of one revolution a day, without drag, whose elements are of
    day 1, and the instant that precedes that epoch by half a day. *)
Definition slow_sat : Satellite.t :=
  {| Satellite.name := "SLOW";
     Satellite.N := 0; Satellite.YE := 2000; Satellite.DE := 1;
     Satellite.TE := 0;
     Satellite.IN := 0; Satellite.RA := 0; Satellite.EC := 0;
     Satellite.WP := 0; Satellite.MA := 0; Satellite.MM := 2 * PI;
     Satellite.M2 := 0; Satellite.RV := 0;
     Satellite.N0 := 2 * PI / 86400; Satellite.A_0 := 42241;
     Satellite.B_0 := 42241; Satellite.PC := 0; Satellite.QD := 0;
     Satellite.WD := 0; Satellite.DC := 0 |}.

Definition half_day_before : DateTime.t :=
  {| DateTime.DN := 0; DateTime.TN := 0.5 |}.

(** An observer on the equator at the meridian of Greenwich and a satellite
    state at its very place. *)
Definition greenwich_equator : Observer.t :=
  {| Observer.name := "EQ";
     Observer.LA := 0; Observer.LO := 0; Observer.HT := 0;
     Observer.U := vec 1 0 0; Observer.E := vec 0 1 0;
     Observer.N := vec 0 0 1;
     Observer.O := vec 6378.137 0 0;
     Observer.V := vec 0 (6378.137 * W0) 0 |}.

Definition at_observer : Satellite.state :=
  {| Satellite.SAT := vec 6378.137 0 0; Satellite.VEL := vec 0 0 0;
     Satellite.S := vec 6378.137 0 0; Satellite.V := vec 0 0 0;
     Satellite.RS := 6378.137 |}.

(** A quarter of a day into day 100. *)
Definition quarter_day : DateTime.t :=
  {| DateTime.DN := 100; DateTime.TN := 0.25 |}.

End Sample.

(** ** Day numbers and instants *)

Module Julian.

(** The Julian day number of a Gregorian date at noon, by the formula of
    Fliegel and Van Flandern; its divisions round toward zero. *)
Definition day_number (y m d : Z) : Z :=
  let a := Z.quot (m - 14) 12 in
  (d - 32075 + Z.quot (1461 * (y + 4800 + a)) 4
   + Z.quot (367 * (m - 2 - a * 12)) 12
   - Z.quot (3 * Z.quot (y + 4900 + a) 100) 4)%Z.

(** The dates for which the comment of [fndate] announces it valid:
    1900 Mar 01 to 2100 Feb 28. *)
Definition in_fndate_range (y m d : Z) : bool :=
  (Calendar.valid_date y m d
   && ((1900 <? y) || (3 <=? m)) && ((y <? 2100) || (m <=? 2)))%Z.

(** The day numbers of these two dates. *)
Definition first_day : Z := 693670.
Definition last_day : Z := 766718.

Definition agrees (y m d : Z) : bool :=
  (Calendar.fnday_quot y m d =? day_number y m d - 1721410)%Z.

Definition back_ok (dn : Z) : bool :=
  let '(y, m, d) := Calendar.fndate_quot dn in
  (in_fndate_range y m d && (Calendar.fnday_quot y m d =? dn))%Z.

Definition leap_gap (y : Z) : bool :=
  (Calendar.fnday_quot y 3 1 - Calendar.fnday_quot y 2 28
   =? (if y mod 4 =? 0 then 2 else 1))%Z.

End Julian.

(** The instant of a [DateTime], in days. *)
Definition instant (dt : DateTime.t) : R :=
  IZR (DateTime.DN dt) + DateTime.TN dt.

(** [a] is earlier than [b]: by the day number, then by the fraction. *)
Definition earlier (a b : DateTime.t) : Prop :=
  (DateTime.DN a < DateTime.DN b)%Z \/
  (DateTime.DN a = DateTime.DN b /\ DateTime.TN a < DateTime.TN b).

(** ** More on vectors *)

Definition cross (a b : Vec3) : Vec3 :=
  vec (v1 a * v2 b - v2 a * v1 b)
      (v2 a * v0 b - v0 a * v2 b)
      (v0 a * v1 b - v1 a * v0 b).

Definition scale (k : R) (a : Vec3) : Vec3 :=
  vec (k * v0 a) (k * v1 a) (k * v2 a).

Definition vadd (a b : Vec3) : Vec3 :=
  vec (v0 a + v0 b) (v1 a + v1 b) (v2 a + v2 b).

(** The altitude and the azimuth that [Satellite::altaz] and [Sun::altaz]
    compute from a line of sight [L] that is not zero: the line is divided
    by its length and projected on Up, East and North. *)
Definition look (L : Vec3) (obs : Observer.t) : R * R :=
  let r := norm L in
  let u := dot L (Observer.U obs) / r in
  let e := dot L (Observer.E obs) / r in
  let n := dot L (Observer.N obs) / r in
  let az := DEGREES (atan2 e n) in
  (DEGREES (asin u), if Rlt_dec az 0 then az + 360 else az).

(** ** More sample values *)

Module Scene.

(** A satellite state at the distance [h] to the east of an observer, on
    its horizon. *)
Definition east_of (obs : Observer.t) (h : R) : Satellite.state :=
  {| Satellite.SAT := vadd (Observer.O obs) (scale h (Observer.E obs));
     Satellite.VEL := vec 0 0 0;
     Satellite.S := vadd (Observer.O obs) (scale h (Observer.E obs));
     Satellite.V := vec 0 0 0;
     Satellite.RS := norm (vadd (Observer.O obs) (scale h (Observer.E obs)))
  |}.

(** Two ways to write the instant 99.75: with a fraction in [[0, 1)], and
    as [add] leaves it when half a day is taken from day 100.25. *)
Definition day_99_18h : DateTime.t :=
  {| DateTime.DN := 99; DateTime.TN := 0.75 |}.
Definition day_100_minus_6h : DateTime.t :=
  {| DateTime.DN := 100; DateTime.TN := -0.25 |}.

(** The element set of the space station, epoch 2020 day 45. *)
Definition iss_line1 : string :=
  "1 25544U 98067A   20045.18587073  .00000950  00000-0  25302-4 0  9990".
Definition iss_line2 : string :=
  "2 25544  51.6443 242.0161 0004885 264.6060 207.3845 15.49165514212791".

End Scene.

(** ** Fields made of digits *)

(** Every character of the text is a decimal digit. *)
Fixpoint all_digits (s : string) : bool :=
  match s with
  | String c s' =>
      match digit c with Some _ => all_digits s' | None => false end
  | EmptyString => true
  end.

(** ** [DateTime::ascii] *)

Module Text.

(** The decimal digits of the absolute value of [n]. *)
Definition decimal (n : Z) : string :=
  NilZero.string_of_uint (N.to_uint (Z.to_N (Z.abs n))).

Fixpoint pad (c : ascii) (k : nat) : string :=
  match k with
  | O => EmptyString
  | S k' => String c (pad c k')
  end.

(** The conversion [%d] of [sprintf] with a minimum field width: [%4d]
    fills on the left with blanks, [%02d] with zeros after the sign. *)
Definition fmt_d (zero : bool) (width : nat) (n : Z) : string :=
  let sign := if (n <? 0)%Z then "-"%string else ""%string in
  let digits := decimal n in
  let fill := (width - (String.length sign + String.length digits))%nat in
  if zero then (sign ++ pad "0" fill ++ digits)%string
  else (pad " " fill ++ sign ++ digits)%string.

(** A number printed by [%4d] takes four characters that [atol] reads
    back. *)
Definition four_ok (n : Z) : bool :=
  match fmt_d false 4 n with
  | String a (String b (String c (String d EmptyString))) =>
      (atol (String a (String b (String c (String d EmptyString)))) =? n)%Z
  | _ => false
  end.

(** A number printed by [%02d] takes two characters that [atol] reads
    back. *)
Definition two_ok (n : Z) : bool :=
  match fmt_d true 2 n with
  | String a (String b EmptyString) =>
      (atol (String a (String b EmptyString)) =? n)%Z
  | _ => false
  end.

End Text.

(** [DateTime::ascii]: the characters written to [buf] by
    [sprintf (buf, "%4d/%02d/%02d %02d:%02d:%02d", ...)], without the final
    zero. *)
Definition DateTime_ascii (dt : DateTime.t) : string :=
  let '(year, mon, day, h, m, s) := DateTime.gettime dt in
  (Text.fmt_d false 4 year ++ "/" ++ Text.fmt_d true 2 mon ++ "/"
   ++ Text.fmt_d true 2 day ++ " " ++ Text.fmt_d true 2 h ++ ":"
   ++ Text.fmt_d true 2 m ++ ":" ++ Text.fmt_d true 2 s)%string.

(** ** The arithmetic of the machine

    The definitions above compute with real numbers.  The module below
    transcribes, in the binary64 numbers of IEEE 754 that a C [double] is,
    the statements of [Plan13.cpp] on which rounding decides the outcome:
    the casts of [gettime], the sum of [add], the quotient and the product
    of the mean anomaly's reduction, the exit test of the Kepler loop and
    the normalization of the azimuth.  Sums, products, quotients and square
    roots are the correctly rounded ones of the processor.  The functions of
    the C library ([sin], [cos], [asin], [atan2]) are not: a definition that
    calls one takes it as an argument.  A decimal constant stands for the
    nearest double, as [strtod] and the compiler read it. *)

Set Warnings "-inexact-float".

Module Binary64.

Import PrimFloat FloatOps SpecFloat.
Local Open Scope float_scope.

(** [M_PI] of [math.h]: the double nearest to the number pi. *)
Definition M_PI : float := 0x1.921fb54442d18p+1.

(** [(long) x] and [(int) x]: the fractional part is discarded.  The cast of
    an infinity, of a NaN or of a value beyond the range of [long] is
    undefined in C; [0] stands for it here. *)
Definition to_long (x : float) : Z :=
  match Prim2SF x with
  | S754_finite s m e =>
      let v := if (0 <=? e)%Z then (Z.pos m * 2 ^ e)%Z
               else Z.shiftr (Z.pos m) (- e) in
      if s then (- v)%Z else v
  | _ => 0%Z
  end.

(** The conversion of an [int] or a [long] to [double], for an integer of
    less than 63 bits. *)
Definition of_long (z : Z) : float :=
  if (z <? 0)%Z then - of_uint63 (Uint63.of_Z (- z))
  else of_uint63 (Uint63.of_Z z).

(** [RADIANS] and [DEGREES]. *)
Definition RADIANS (deg : float) : float := deg * M_PI / 180.
Definition DEGREES (rad : float) : float := rad * 180 / M_PI.

(** The fraction of day [TN] that [DateTime::settime] stores. *)
Definition settime_TN (h m s : Z) : float :=
  (of_long h + of_long m / 60 + of_long s / 3600) / 24.

(** The hour, minute and second that [DateTime::gettime] reads from [TN]. *)
Definition gettime_hms (TN : float) : Z * Z * Z :=
  let t := TN * 24 in
  let h := to_long t in
  let t := (t - of_long h) * 60 in
  let m := to_long t in
  let t := (t - of_long m) * 60 in
  let s := to_long t in
  (h, m, s).

(** [DateTime::add] on the pair [(DN, TN)]. *)
Definition add (dt : Z * float) (days : float) : Z * float :=
  let TN := snd dt + days in
  ((fst dt + to_long TN)%Z, TN - of_long (to_long TN)).

(** The quantities of an element set that the mean anomaly depends on. *)
Record elements : Type :=
  mk_elements { DE : Z; TE : float; MA : float; MM : float; DC : float }.

(** These quantities as [Satellite::tle] derives them: [jan0] is
    [fnday (YE, 1, 0)], and [epoch], [ma], [mm] and [m2] are what
    [getdouble] returns for the columns 20-32 of the first line, 43-51 and
    52-63 of the second and 33-43 of the first. *)
Definition tle (jan0 : Z) (epoch ma mm m2 : float) : elements :=
  let M2 := 2 * M_PI * m2 in
  let MA := RADIANS ma in
  let MM := 2 * M_PI * mm in
  {| DE := (jan0 + to_long epoch)%Z;
     TE := epoch - of_long (to_long epoch);
     MA := MA; MM := MM;
     DC := -2 * M2 / (3 * MM) |}.

(** The mean anomaly of [Satellite::predict] at the day number and fraction
    [dt], before whole revolutions are removed. *)
Definition mean_anomaly (el : elements) (dt : Z * float) : float :=
  let T := of_long (fst dt - DE el) + (snd dt - TE el) in
  let DT := DC el * T / 2 in
  MA el + MM el * T * (1 - 3 * DT).

(** [double DR = (long) (M / (2. * M_PI)) ; M -= DR * 2. * M_PI]. *)
Definition wrap (M : float) : Z * float :=
  let DR := of_long (to_long (M / (2 * M_PI))) in
  (to_long DR, M - DR * 2 * M_PI).

(** The loop of [Satellite::predict], run with [fuel], for the sine and the
    cosine of the C library. *)
Fixpoint kepler (sin cos : float -> float) (fuel : nat) (EC M EA : float)
  : option float :=
  match fuel with
  | O => None
  | S fuel' =>
      let C_EA := cos EA in
      let S_EA := sin EA in
      let DNOM := 1 - EC * C_EA in
      let D := (EA - EC * S_EA - M) / DNOM in
      let EA := EA - D in
      if abs D <? 1e-5 then Some EA else kepler sin cos fuel' EC M EA
  end.

Record Vec3 : Type := vec { v0 : float; v1 : float; v2 : float }.

(** The triad and the position of an [Observer]. *)
Record Observer : Type :=
  mk_observer { U : Vec3; E : Vec3; N : Vec3; O : Vec3 }.

(** The constructor [Observer::Observer], where [CA], [SA], [CL] and [SL]
    are what [cos (LA)], [sin (LA)], [cos (LO)] and [sin (LO)] return. *)
Definition observer (RE FL CA SA CL SL hgt : float) : Observer :=
  let HT := hgt / 1000 in
  let U := vec (CA * CL) (CA * SL) SA in
  let E := vec (- SL) CL 0 in
  let N := vec (- SA * CL) (- SA * SL) CA in
  let RP := RE * (1 - FL) in
  let XX := RE * RE in
  let ZZ := RP * RP in
  let D := sqrt (XX * CA * CA + ZZ * SA * SA) in
  let Rx := XX / D + HT in
  let Rz := ZZ / D + HT in
  {| U := U; E := E; N := N;
     O := vec (Rx * v0 U) (Rx * v1 U) (Rz * v2 U) |}.

(** [az = DEGREES (a) ; if (az < 0.) az += 360.], where [a] is what
    [atan2 (e, n)] returns. *)
Definition azimuth (a : float) : float :=
  let az := DEGREES a in
  if az <? 0 then az + 360 else az.

(** [Satellite::altaz] for the Earth-fixed position [S], and [Sun::altaz]
    with [H] in its place: [(alt, az)]. *)
Definition altaz (atan2 : float -> float -> float) (asin : float -> float)
    (S : Vec3) (obs : Observer) : float * float :=
  let R0 := v0 S - v0 (O obs) in
  let R1 := v1 S - v1 (O obs) in
  let R2 := v2 S - v2 (O obs) in
  let r := sqrt (R0 * R0 + R1 * R1 + R2 * R2) in
  let R0 := R0 / r in
  let R1 := R1 / r in
  let R2 := R2 / r in
  let u := R0 * v0 (U obs) + R1 * v1 (U obs) + R2 * v2 (U obs) in
  let e := R0 * v0 (E obs) + R1 * v1 (E obs) + R2 * v2 (E obs) in
  let n := R0 * v0 (N obs) + R1 * v1 (N obs) + R2 * v2 (N obs) in
  (DEGREES (asin u), azimuth (atan2 e n)).

(** The element set of [Scene.iss_line1] and [Scene.iss_line2], of epoch
    2020 day 45.18587073: [fnday (2020, 1, 0)] is 737439. *)
Definition iss : elements :=
  tle 737439 45.18587073 207.3845 15.49165514 0.00000950.

(** The same lines with a mean motion that is not a number, which
    [getdouble] reads as zero. *)
Definition iss_no_motion : elements :=
  tle 737439 45.18587073 207.3845 0 0.00000950.

(** Midnight of 2020 Feb 13, a day and a fraction before the epoch of
    [iss], and an instant of Feb 16, two days after it. *)
Definition before_epoch : Z * float := (737483%Z, 0).
Definition after_epoch : Z * float := (737486%Z, 0.2788614424596781).

(** The observer at latitude 0, longitude 0 and height 0: the sine of 0 is
    0 and its cosine is 1. *)
Definition equator : Observer :=
  observer 6378.137 (1 / 298.257224) 1 0 1 0 0.

(** A position 1000 km to the north of that place and a hair to the
    west. *)
Definition near_north : Vec3 := vec (v0 (O equator)) (-1e-20) 1000.

(** The east component [e] of the unit line of sight to [near_north]. *)
Definition hair_west : float := -0x1.82db34012b251p-77.

(** [gettime] reads the time [settime] stored, or the second before it. *)
Definition reads_back (h m s : Z) : bool :=
  let '(h', m', s') := gettime_hms (settime_TN h m s) in
  let late :=
    (Calendar.second_of_day h m s - Calendar.second_of_day h' m' s')%Z in
  Calendar.valid_time h' m' s' && ((late =? 0) || (late =? 1))%Z.

(** [gettime] reads the second before the one [settime] stored. *)
Definition reads_early (h m s : Z) : bool :=
  let '(h', m', s') := gettime_hms (settime_TN h m s) in
  (Calendar.second_of_day h' m' s' =? Calendar.second_of_day h m s - 1)%Z.

(** The number of the times of a day that are read a second early. *)
Definition early_readings : Z :=
  fold_left
    (fun acc h =>
       fold_left
         (fun acc m =>
            fold_left
              (fun acc s => if reads_early h m s then (acc + 1)%Z else acc)
              (Calendar.range 0 60) acc)
         (Calendar.range 0 60) acc)
    (Calendar.range 0 24) 0%Z.

End Binary64.

(** ** Truncation *)

Lemma to_long_nonneg (x : R) (k : Z) :
  0 <= x -> IZR k <= x < IZR k + 1 -> to_long x = k.
Proof.
  intros Hx Hk. unfold to_long.
  destruct (Rlt_dec x 0) as [Hneg | _]; [lra |].
  now apply Zfloor_eq.
Qed.

Lemma to_long_nonpos (x : R) (k : Z) :
  x <= 0 -> IZR k - 1 < x <= IZR k -> to_long x = k.
Proof.
  intros Hx Hk. unfold to_long.
  destruct (Rlt_dec x 0) as [_ | Hpos].
  - now apply Zceil_eq.
  - assert (x = 0) by lra. subst x.
    assert (Hk0 : (0 <= k)%Z) by (apply le_IZR; lra).
    assert (Hk1 : (k < 1)%Z) by (apply lt_IZR; lra).
    replace k with 0%Z by lia.
    apply Zfloor_eq. lra.
Qed.

Lemma to_long_IZR (k : Z) : to_long (IZR k) = k.
Proof.
  destruct (Rle_dec 0 (IZR k)).
  - apply to_long_nonneg; lra.
  - apply to_long_nonpos; lra.
Qed.

(** The cast of a quotient of integers is the integer quotient that rounds
    toward zero. *)
Lemma to_long_ratio (a b : Z) :
  (0 < b)%Z -> to_long (IZR a / IZR b) = Z.quot a b.
Proof.
  intros Hb.
  assert (HbR : 0 < IZR b) by now apply IZR_lt.
  pose proof (Z.quot_rem' a b) as Hqr.
  assert (Hx : IZR a / IZR b = IZR (Z.quot a b) + IZR (Z.rem a b) / IZR b).
  { rewrite Hqr at 1. rewrite plus_IZR, mult_IZR. field. lra. }
  destruct (Z_le_gt_dec 0 a) as [Ha | Ha].
  - pose proof (Z.rem_bound_pos a b Ha Hb) as [Hr0 Hr1].
    apply IZR_le in Hr0. apply IZR_lt in Hr1.
    assert (0 <= IZR (Z.rem a b) / IZR b < 1).
    { split.
      - apply Rmult_le_pos; [lra |]. apply Rlt_le. now apply Rinv_0_lt_compat.
      - apply Rmult_lt_reg_r with (IZR b); [lra |].
        unfold Rdiv. rewrite Rmult_assoc, Rinv_l; lra. }
    assert (0 <= IZR (Z.quot a b)).
    { apply IZR_le. apply Z.quot_pos; lia. }
    apply to_long_nonneg; lra.
  - assert (Ha' : (a <= 0)%Z) by lia.
    pose proof (Z.rem_bound_pos_neg a b Hb Ha') as [Hr0 Hr1].
    apply IZR_lt in Hr0. apply IZR_le in Hr1. rewrite opp_IZR in Hr0.
    assert (-1 < IZR (Z.rem a b) / IZR b <= 0).
    { split.
      - apply Rmult_lt_reg_r with (IZR b); [lra |].
        unfold Rdiv. rewrite Rmult_assoc, Rinv_l; lra.
      - apply Rmult_le_reg_r with (IZR b); [lra |].
        unfold Rdiv. rewrite Rmult_assoc, Rinv_l; lra. }
    assert (IZR (Z.quot a b) <= 0).
    { apply IZR_le. pose proof (Z.mul_quot_ge a b Ha'). nia. }
    apply to_long_nonpos; lra.
Qed.

Lemma to_long_bound_nonneg (x : R) :
  0 <= x -> IZR (to_long x) <= x < IZR (to_long x) + 1.
Proof.
  intros Hx. unfold to_long.
  destruct (Rlt_dec x 0) as [Hneg | _]; [lra |].
  apply Zfloor_bound.
Qed.

Lemma to_long_bound_nonpos (x : R) :
  x <= 0 -> IZR (to_long x) - 1 < x <= IZR (to_long x).
Proof.
  intros Hx. unfold to_long.
  destruct (Rlt_dec x 0) as [_ | Hpos].
  - apply Zceil_bound.
  - assert (x = 0) by lra. subst x.
    rewrite (Zfloor_eq 0 0) by lra. lra.
Qed.

(** ** The calendar round trip *)

Lemma in_range (lo x : Z) (n : nat) :
  (lo <= x < lo + Z.of_nat n)%Z -> In x (Calendar.range lo n).
Proof.
  intros Hx. unfold Calendar.range. apply in_map_iff.
  exists (Z.to_nat (x - lo)). split; [lia |].
  apply in_seq. lia.
Qed.

Lemma forallb_range (f : Z -> bool) (lo x : Z) (n : nat) :
  forallb f (Calendar.range lo n) = true ->
  (lo <= x < lo + Z.of_nat n)%Z -> f x = true.
Proof.
  intros Hall Hx. rewrite forallb_forall in Hall.
  apply Hall. now apply in_range.
Qed.

(** Every valid date of the range survives [fnday] followed by [fndate]:
    checked by evaluation, date by date. *)
Lemma all_dates_ok_true :
  forallb (fun y =>
    forallb (fun m =>
      forallb (fun d =>
                 implb (Calendar.valid_date y m d) (Calendar.date_ok y m d))
              (Calendar.range 1 31))
            (Calendar.range 1 12))
          (Calendar.range 1900 201) = true.
Proof. vm_compute. reflexivity. Qed.

Lemma date_ok_valid (y m d : Z) :
  Calendar.valid_date y m d = true -> Calendar.date_ok y m d = true.
Proof.
  intros Hv.
  assert (Hb : (1900 <= y <= 2100 /\ 1 <= m <= 12 /\ 1 <= d <= 31)%Z).
  { unfold Calendar.valid_date in Hv.
    repeat (apply andb_prop in Hv; destruct Hv as [Hv ?]).
    assert (Calendar.days_in_month y m <= 31)%Z.
    { unfold Calendar.days_in_month.
      repeat match goal with |- context [if ?b then _ else _] => destruct b end;
        lia. }
    lia. }
  destruct Hb as (Hy & Hm & Hd).
  pose proof all_dates_ok_true as Hall.
  apply forallb_range with (x := y) in Hall; [| lia].
  apply forallb_range with (x := m) in Hall; [| lia].
  apply forallb_range with (x := d) in Hall; [| lia].
  rewrite Hv in Hall. exact Hall.
Qed.

(** The time of day read back is the one stored. *)
Lemma gettime_hms_settime (h m s : Z) :
  Calendar.valid_time h m s = true ->
  DateTime.gettime_hms ((IZR h + IZR m / 60 + IZR s / 3600) / 24) = (h, m, s).
Proof.
  intros Hv. unfold Calendar.valid_time in Hv.
  repeat (apply andb_prop in Hv; destruct Hv as [Hv ?]).
  assert (Hh : 0 <= IZR h <= 23) by (split; apply IZR_le; lia).
  assert (Hm : 0 <= IZR m <= 59) by (split; apply IZR_le; lia).
  assert (Hs : 0 <= IZR s <= 59) by (split; apply IZR_le; lia).
  unfold DateTime.gettime_hms, to_int.
  set (t := (IZR h + IZR m / 60 + IZR s / 3600) / 24 * 24).
  assert (Ht : t = IZR h + IZR m / 60 + IZR s / 3600) by (unfold t; lra).
  assert (Hc1 : to_long t = h) by (apply to_long_nonneg; lra).
  rewrite Hc1.
  assert (Hc2 : to_long ((t - IZR h) * 60) = m) by (apply to_long_nonneg; lra).
  rewrite Hc2.
  assert (Hc3 : to_long (((t - IZR h) * 60 - IZR m) * 60) = s)
    by (apply to_long_nonneg; lra).
  rewrite Hc3. reflexivity.
Qed.

Section CalendarRoundTrip.

Import Calendar.

Variable YM : R.
Hypothesis YM_julian : YM = 365.25.

Lemma fnday_fnday_quot (y m d : Z) :
  DateTime.fnday YM y m d = fnday_quot y m d.
Proof.
  unfold DateTime.fnday, fnday_quot.
  destruct (m <? 3)%Z.
  - replace (IZR (y - 1) * YM) with (IZR (1461 * (y - 1)) / IZR 4)
      by (rewrite YM_julian, mult_IZR; lra).
    replace (IZR (m + 12 + 1) * 30.6) with (IZR (306 * (m + 12 + 1)) / IZR 10)
      by (rewrite mult_IZR; lra).
    rewrite !to_long_ratio by lia. reflexivity.
  - replace (IZR y * YM) with (IZR (1461 * y) / IZR 4)
      by (rewrite YM_julian, mult_IZR; lra).
    replace (IZR (m + 1) * 30.6) with (IZR (306 * (m + 1)) / IZR 10)
      by (rewrite mult_IZR; lra).
    rewrite !to_long_ratio by lia. reflexivity.
Qed.

Lemma fndate_fndate_quot (dt : Z) : DateTime.fndate dt = fndate_quot dt.
Proof.
  unfold DateTime.fndate, fndate_quot, to_int.
  replace ((IZR (dt + 428) - 122.1) / 365.25)
    with (IZR (20 * (dt + 428) - 2442) / IZR 7305)
    by (rewrite minus_IZR, mult_IZR; lra).
  rewrite to_long_ratio by lia.
  set (y := Z.quot (20 * (dt + 428) - 2442) 7305).
  replace (IZR y * 365.25) with (IZR (1461 * y) / IZR 4)
    by (rewrite mult_IZR; lra).
  rewrite to_long_ratio by lia.
  set (dt1 := (dt + 428 - Z.quot (1461 * y) 4)%Z).
  replace (IZR dt1 / 30.61) with (IZR (100 * dt1) / IZR 3061)
    by (rewrite mult_IZR; lra).
  rewrite to_long_ratio by lia.
  set (m := Z.quot (100 * dt1) 3061).
  replace (IZR m * 30.6) with (IZR (306 * m) / IZR 10)
    by (rewrite mult_IZR; lra).
  rewrite to_long_ratio by lia.
  reflexivity.
Qed.

(** The date and the time of day come back unchanged. *)
Lemma gettime_settime_exact (y mo d h mi s : Z) :
  valid_date y mo d = true -> valid_time h mi s = true ->
  DateTime.gettime (DateTime.settime YM y mo d h mi s) = (y, mo, d, h, mi, s).
Proof.
  intros Hd Ht. unfold DateTime.gettime, DateTime.settime.
  cbn [DateTime.DN DateTime.TN].
  rewrite fnday_fnday_quot, fndate_fndate_quot.
  apply date_ok_valid in Hd. unfold date_ok in Hd.
  destruct (fndate_quot (fnday_quot y mo d)) as [[y' m'] d'].
  repeat (apply andb_prop in Hd; destruct Hd as [Hd ?]).
  rewrite gettime_hms_settime by exact Ht.
  repeat f_equal; lia.
Qed.

(** C2.  Calendar round trip: for a valid date of the years 1900 to 2100 and
    a valid time of day, [settime] followed by [gettime] gives back the same
    year, month and day, and a time of day that differs from the one given
    by at most one second (in this model of exact arithmetic, by none). *)
Theorem gettime_settime_roundtrip (y mo d h mi s : Z) :
  valid_date y mo d = true -> valid_time h mi s = true ->
  exists h' mi' s' : Z,
    DateTime.gettime (DateTime.settime YM y mo d h mi s)
      = (y, mo, d, h', mi', s') /\
    (Z.abs (second_of_day h' mi' s' - second_of_day h mi s) <= 1)%Z.
Proof.
  intros Hd Ht. exists h, mi, s. split.
  - now apply gettime_settime_exact.
  - lia.
Qed.

End CalendarRoundTrip.

Lemma gettime_settime_roundtrip_witness :
  exists h' mi' s' : Z,
    DateTime.gettime (DateTime.settime 365.25 2020 2 29 23 59 59)
      = (2020, 2, 29, h', mi', s')%Z /\
    (Z.abs (Calendar.second_of_day h' mi' s'
            - Calendar.second_of_day 23 59 59) <= 1)%Z.
Proof.
  apply (gettime_settime_roundtrip 365.25 eq_refl 2020 2 29 23 59 59);
    vm_compute; reflexivity.
Defined.

(** ** [DateTime::add] *)

(** The instant [DN + TN] moves by [days]. *)
Lemma add_instant (dt : DateTime.t) (days : R) :
  IZR (DateTime.DN (DateTime.add dt days)) + DateTime.TN (DateTime.add dt days)
  = IZR (DateTime.DN dt) + DateTime.TN dt + days.
Proof.
  unfold DateTime.add. cbn [DateTime.DN DateTime.TN].
  rewrite plus_IZR. ring.
Qed.

(** When the sum [TN + days] is not negative the fraction left is in
    [[0, 1)]. *)
Lemma add_fraction_nonneg (dt : DateTime.t) (days : R) :
  0 <= DateTime.TN dt + days ->
  0 <= DateTime.TN (DateTime.add dt days) < 1.
Proof.
  intros Hs. unfold DateTime.add. cbn [DateTime.TN].
  pose proof (to_long_bound_nonneg _ Hs). lra.
Qed.

(** When the sum [TN + days] is negative the fraction left is in
    [(-1, 0]]: the cast rounds toward zero and the day number is not
    borrowed from. *)
Lemma add_fraction_neg (dt : DateTime.t) (days : R) :
  DateTime.TN dt + days <= 0 ->
  -1 < DateTime.TN (DateTime.add dt days) <= 0.
Proof.
  intros Hs. unfold DateTime.add. cbn [DateTime.TN].
  pose proof (to_long_bound_nonpos _ Hs). lra.
Qed.

(** C5.  Epoch normalization: half a day taken from a quarter of a day into
    day 100 leaves the day number 100 and the fraction [-0.25], not day 99
    and [0.75]: the fraction left by [add] is outside [[0, 1)], and [gettime]
    then reads the hour [-6]. *)
Theorem add_leaves_negative_fraction :
  DateTime.add Sample.quarter_day (-0.5)
    = {| DateTime.DN := 100; DateTime.TN := -0.25 |}
  /\ ~ (0 <= DateTime.TN (DateTime.add Sample.quarter_day (-0.5)) < 1)
  /\ DateTime.gettime_hms (DateTime.TN (DateTime.add Sample.quarter_day (-0.5)))
     = ((-6)%Z, 0%Z, 0%Z).
Proof.
  assert (Hc : to_long (0.25 + -0.5) = 0%Z)
    by (apply to_long_nonpos; lra).
  unfold DateTime.add, Sample.quarter_day. cbn [DateTime.DN DateTime.TN].
  rewrite Hc. repeat split.
  - f_equal. lra.
  - lra.
  - unfold DateTime.gettime_hms, to_int.
    replace ((0.25 + -0.5 - 0) * 24) with (IZR (-6)) by lra.
    rewrite to_long_IZR.
    replace ((IZR (-6) - IZR (-6)) * 60) with (IZR 0) by lra.
    rewrite to_long_IZR.
    replace ((IZR 0 - IZR 0) * 60) with (IZR 0) by lra.
    rewrite to_long_IZR. reflexivity.
Qed.

(** ** The mean anomaly of [Satellite::predict] *)

Lemma wrap_nonpos (M : R) :
  M <= 0 -> - (2 * PI) < snd (Satellite.wrap M) <= 0.
Proof.
  intros HM. unfold Satellite.wrap. cbn [snd].
  pose proof PI_RGT_0 as Hpi.
  assert (Hq : M / (2 * PI) <= 0).
  { apply Rmult_le_reg_r with (2 * PI); [lra |].
    unfold Rdiv. rewrite Rmult_assoc, Rinv_l; lra. }
  pose proof (to_long_bound_nonpos _ Hq) as [Hlo Hhi].
  set (k := IZR (to_long (M / (2 * PI)))) in *.
  assert (HMq : M = M / (2 * PI) * (2 * PI)) by (field; lra).
  split.
  - apply Rmult_lt_compat_r with (r := 2 * PI) in Hlo; lra.
  - apply Rmult_le_compat_r with (r := 2 * PI) in Hhi; lra.
Qed.

(** Half a day before the epoch of a satellite of one revolution a day the
    mean anomaly is [- PI]: the cast rounds toward zero, no whole revolution
    is removed and the value left is negative, in exact arithmetic
    already. *)
Lemma wrap_before_epoch_negative :
  ~ (0 <= snd (Satellite.wrap
                 (Satellite.mean_anomaly Sample.slow_sat
                    Sample.half_day_before)) < 2 * PI).
Proof.
  pose proof PI_RGT_0 as Hpi.
  assert (HM : Satellite.mean_anomaly Sample.slow_sat Sample.half_day_before
               = - PI).
  { unfold Satellite.mean_anomaly, Sample.slow_sat, Sample.half_day_before.
    cbn [Satellite.DE Satellite.TE Satellite.DC Satellite.MA Satellite.MM
         DateTime.DN DateTime.TN].
    replace (IZR (0 - 1)) with (-1) by (rewrite minus_IZR; lra). lra. }
  rewrite HM.
  pose proof (wrap_nonpos (- PI) ltac:(lra)) as [_ Hle].
  unfold Satellite.wrap in *. cbn [snd] in *.
  assert (Hk : to_long (- PI / (2 * PI)) = 0%Z).
  { apply to_long_nonpos.
    - replace (- PI / (2 * PI)) with (- (1 / 2)) by (field; lra). lra.
    - replace (- PI / (2 * PI)) with (- (1 / 2)) by (field; lra). lra. }
  rewrite Hk. lra.
Qed.

(** ** The triad of the observer *)

Lemma sin_cos_sqr (x : R) : sin x * sin x + cos x * cos x = 1.
Proof. pose proof (sin2_cos2 x) as Hx. unfold Rsqr in Hx. exact Hx. Qed.

Section ObserverTriad.

Variables RE FL W0 : R.
Variable nm : string.
Variables lat lng hgt : R.

Let obs := Observer.make RE FL W0 nm lat lng hgt.

Lemma observer_dots :
  dot (Observer.U obs) (Observer.E obs) = 0 /\
  dot (Observer.U obs) (Observer.N obs) = 0 /\
  dot (Observer.E obs) (Observer.N obs) = 0 /\
  dot (Observer.U obs) (Observer.U obs) = 1 /\
  dot (Observer.E obs) (Observer.E obs) = 1 /\
  dot (Observer.N obs) (Observer.N obs) = 1.
Proof.
  unfold obs, Observer.make, dot.
  cbn [Observer.U Observer.E Observer.N v0 v1 v2].
  pose proof (sin_cos_sqr (RADIANS lat)) as Ha.
  pose proof (sin_cos_sqr (RADIANS lng)) as Ho.
  set (sa := sin (RADIANS lat)) in *. set (ca := cos (RADIANS lat)) in *.
  set (so := sin (RADIANS lng)) in *. set (co := cos (RADIANS lng)) in *.
  assert (H1 : ca * sa * (so * so + co * co) = ca * sa)
    by (rewrite Ho; ring).
  assert (H2 : ca * ca * (so * so + co * co) = ca * ca)
    by (rewrite Ho; ring).
  assert (H3 : sa * sa * (so * so + co * co) = sa * sa)
    by (rewrite Ho; ring).
  repeat split; try ring; lra.
Qed.

(** C6.  Orthonormality of the observer's frame: whatever the latitude, the
    longitude and the height, the pairwise dot products of Up, East and North
    are within [1e-9] of zero and their magnitudes within [1e-9] of one (in
    this model of exact arithmetic they are zero and one). *)
Theorem observer_triad_orthonormal :
  Rabs (dot (Observer.U obs) (Observer.E obs)) <= 1e-9 /\
  Rabs (dot (Observer.U obs) (Observer.N obs)) <= 1e-9 /\
  Rabs (dot (Observer.E obs) (Observer.N obs)) <= 1e-9 /\
  Rabs (norm (Observer.U obs) - 1) <= 1e-9 /\
  Rabs (norm (Observer.E obs) - 1) <= 1e-9 /\
  Rabs (norm (Observer.N obs) - 1) <= 1e-9.
Proof.
  destruct observer_dots as (HUE & HUN & HEN & HUU & HEE & HNN).
  unfold norm. rewrite HUE, HUN, HEN, HUU, HEE, HNN, sqrt_1.
  replace (1 - 1) with 0 by ring. rewrite Rabs_R0.
  repeat split; lra.
Qed.

End ObserverTriad.

(** ** Look angles *)



(** The azimuth after [if (az < 0.) az += 360. ;]. *)
Lemma range_zero_iff (P : Vec3) (obs : Observer.t) :
  norm (line_of_sight P obs) = 0 <-> line_of_sight P obs = zero_vec.
Proof.
  unfold norm, dot, line_of_sight, zero_vec. cbn [v0 v1 v2].
  set (a := v0 P - v0 (Observer.O obs)).
  set (b := v1 P - v1 (Observer.O obs)).
  set (c := v2 P - v2 (Observer.O obs)).
  split.
  - intros Hs. apply sqrt_eq_0 in Hs; [| nra].
    assert (a = 0) by nra. assert (b = 0) by nra. assert (c = 0) by nra.
    congruence.
  - intros Hz. injection Hz as Ha Hb Hc. rewrite Ha, Hb, Hc.
    replace (0 * 0 + 0 * 0 + 0 * 0) with 0 by ring. apply sqrt_0.
Qed.

Lemma satellite_altaz_some (st : Satellite.state) (obs : Observer.t) :
  line_of_sight (Satellite.S st) obs <> zero_vec ->
  exists alt az : R, Satellite.altaz st obs = Some (alt, az).
Proof.
  intros Hnz. rewrite <- range_zero_iff in Hnz.
  unfold norm, dot, line_of_sight in Hnz. cbn [v0 v1 v2] in Hnz.
  unfold Satellite.altaz.
  destruct (Req_dec_T _ 0) as [Hr | Hr]; [contradiction |].
  eexists. eexists. reflexivity.
Qed.

(** C9.  Degenerate geometry: when the Earth-fixed position of the satellite
    is the position of the observer the range is zero, the normalization
    divides by it, and [Satellite::altaz] returns no angles; no path of the
    function yields finite angles there. *)
Theorem altaz_at_observer_fails (st : Satellite.state) (obs : Observer.t) :
  Satellite.S st = Observer.O obs ->
  norm (line_of_sight (Satellite.S st) obs) = 0 /\
  Satellite.altaz st obs = None.
Proof.
  intros Heq.
  assert (Hz : norm (line_of_sight (Satellite.S st) obs) = 0).
  { apply range_zero_iff. unfold line_of_sight, zero_vec. rewrite Heq.
    f_equal; ring. }
  split; [exact Hz |].
  unfold norm, dot, line_of_sight in Hz. cbn [v0 v1 v2] in Hz.
  unfold Satellite.altaz.
  destruct (Req_dec_T _ 0) as [Hr | Hr]; [reflexivity | contradiction].
Qed.

Lemma altaz_at_observer_fails_witness :
  norm (line_of_sight (Satellite.S Sample.at_observer)
          Sample.greenwich_equator) = 0 /\
  Satellite.altaz Sample.at_observer Sample.greenwich_equator = None.
Proof.
  apply (altaz_at_observer_fails Sample.at_observer Sample.greenwich_equator).
  reflexivity.
Defined.

(** [Satellite::altaz] returns no angles only in that case. *)
Lemma altaz_none_iff (st : Satellite.state) (obs : Observer.t) :
  Satellite.altaz st obs = None <-> Satellite.S st = Observer.O obs.
Proof.
  split.
  - intros Hn.
    destruct (Req_dec_T (norm (line_of_sight (Satellite.S st) obs)) 0)
      as [Hz | Hz].
    + apply range_zero_iff in Hz. unfold line_of_sight, zero_vec in Hz.
      injection Hz as Ha Hb Hc.
      destruct (Satellite.S st) as [a b c], (Observer.O obs) as [a' b' c'].
      cbn [v0 v1 v2] in *. f_equal; lra.
    + rewrite range_zero_iff in Hz.
      destruct (satellite_altaz_some st obs Hz) as (alt & az & Hsome).
      congruence.
  - intros Heq.
    assert (Hz : norm (line_of_sight (Satellite.S st) obs) = 0).
    { apply range_zero_iff. unfold line_of_sight, zero_vec. rewrite Heq.
      f_equal; ring. }
    unfold norm, dot, line_of_sight in Hz. cbn [v0 v1 v2] in Hz.
    unfold Satellite.altaz.
    destruct (Req_dec_T _ 0) as [Hr | Hr]; [reflexivity | contradiction].
Qed.

(** ** The Sun *)

(** A direction of longitude [x] in a plane tilted by [i], turned by [g]
    about the polar axis, has length one. *)
Lemma tilted_direction_unit (x i g : R) :
  let SUN := vec (cos x) (sin x * cos i) (sin x * sin i) in
  let H := vec (v0 SUN * cos g - v1 SUN * sin g)
               (v0 SUN * sin g + v1 SUN * cos g) (v2 SUN) in
  dot SUN SUN = 1 /\ dot H H = 1.
Proof.
  intros SUN H. unfold dot, H, SUN. cbn [v0 v1 v2].
  pose proof (sin_cos_sqr x) as Hx.
  pose proof (sin_cos_sqr i) as Hi.
  pose proof (sin_cos_sqr g) as Hg.
  set (ct := cos x) in *. set (st := sin x) in *.
  set (ci := cos i) in *. set (si := sin i) in *.
  set (cg := cos g) in *. set (sg := sin g) in *.
  assert (Hsun : ct * ct + st * ci * (st * ci) + st * si * (st * si) = 1).
  { replace (ct * ct + st * ci * (st * ci) + st * si * (st * si))
      with (ct * ct + st * st * (si * si + ci * ci)) by ring.
    rewrite Hi. lra. }
  split; [exact Hsun |].
  replace ((ct * cg - st * ci * sg) * (ct * cg - st * ci * sg)
           + (ct * sg + st * ci * cg) * (ct * sg + st * ci * cg)
           + st * si * (st * si))
    with ((ct * ct + st * ci * (st * ci)) * (sg * sg + cg * cg)
          + st * si * (st * si)) by ring.
  rewrite Hg. lra.
Qed.

Section SunDirection.

Variables YM YG G0 WE WW MAS0 MASD EQC1 EQC2 INS CNS SNS : R.
Hypothesis CNS_cos : CNS = cos INS.
Hypothesis SNS_sin : SNS = sin INS.

Variable dt : DateTime.t.

Let sun := Sun.predict YM YG G0 WE WW MAS0 MASD EQC1 EQC2 CNS SNS dt.

Lemma sun_dots :
  dot (Sun.SUN sun) (Sun.SUN sun) = 1 /\ dot (Sun.H sun) (Sun.H sun) = 1.
Proof.
  unfold sun, Sun.predict. cbn [Sun.SUN Sun.H].
  rewrite CNS_cos, SNS_sin.
  apply tilted_direction_unit.
Qed.

(** C10.  The state of the Sun is a direction: after [Sun::predict] the
    vectors [SUN] and [H] have norm one, when [CNS] and [SNS] are the cosine
    and the sine of the obliquity; and [Sun::altaz] handles [H] as
    [Satellite::altaz] handles the position [S] of a satellite, in
    kilometers: the vector it normalizes is [H] minus the position of the
    observer. *)
Theorem sun_state_is_unit_direction :
  norm (Sun.SUN sun) = 1 /\ norm (Sun.H sun) = 1 /\
  forall (obs : Observer.t) (st : Satellite.state),
    Satellite.S st = Sun.H sun -> Sun.altaz sun obs = Satellite.altaz st obs.
Proof.
  destruct sun_dots as [Hs Hh]. unfold norm. rewrite Hs, Hh, sqrt_1.
  repeat split.
  intros obs st Heq. unfold Sun.altaz, Satellite.altaz. rewrite Heq.
  reflexivity.
Qed.

End SunDirection.

Lemma sun_state_is_unit_direction_witness :
  let sun := Sun.predict Sample.YM Sample.YG Sample.G0 Sample.WE Sample.WW
               Sample.MAS0 Sample.MASD Sample.EQC1 Sample.EQC2
               Sample.CNS Sample.SNS Sample.quarter_day in
  norm (Sun.SUN sun) = 1 /\ norm (Sun.H sun) = 1 /\
  forall (obs : Observer.t) (st : Satellite.state),
    Satellite.S st = Sun.H sun -> Sun.altaz sun obs = Satellite.altaz st obs.
Proof.
  apply (sun_state_is_unit_direction Sample.YM Sample.YG Sample.G0 Sample.WE
           Sample.WW Sample.MAS0 Sample.MASD Sample.EQC1 Sample.EQC2
           Sample.INS Sample.CNS Sample.SNS);
    reflexivity.
Defined.

(** ** Fields that hold no number *)

Lemma read_digits_no_digit (s : string) :
  Fields.starts_with_digit s = false -> read_digits 0 0 s = (0%Z, 0%Z, s).
Proof.
  destruct s as [| c s']; [reflexivity |].
  cbn [Fields.starts_with_digit read_digits].
  destruct (digit c); [discriminate | reflexivity].
Qed.

Lemma atol_no_integer (s : string) :
  Fields.no_integer s = true -> atol s = 0%Z.
Proof.
  unfold Fields.no_integer, atol. intros Hn.
  destruct (read_sign (skip_space s)) as [neg s'].
  cbn [snd] in Hn. apply negb_true_iff in Hn.
  rewrite (read_digits_no_digit _ Hn).
  now destruct neg.
Qed.

Lemma strtod_no_decimal (s : string) :
  Fields.no_decimal s = true -> strtod s = 0.
Proof.
  unfold Fields.no_decimal, strtod. intros Hn.
  destruct (read_sign (skip_space s)) as [neg s'].
  cbn [snd] in Hn.
  apply andb_prop in Hn. destruct Hn as [Hn _].
  apply andb_prop in Hn. destruct Hn as [Hd Hp].
  apply negb_true_iff in Hd. apply negb_true_iff in Hp.
  rewrite (read_digits_no_digit _ Hd).
  destruct s' as [| c s'']; [reflexivity |].
  destruct (ascii_dec c ".") as [-> | Hc].
  - rewrite (read_digits_no_digit _ Hp). reflexivity.
  - destruct c as [[] [] [] [] [] [] [] []]; try reflexivity.
    now elim Hc.
Qed.

Lemma getlong_no_integer (c : string) (i0 i1 : nat) :
  Fields.no_integer (substring i0 (i1 - i0) c) = true -> getlong c i0 i1 = 0%Z.
Proof. apply atol_no_integer. Qed.

Lemma getdouble_no_decimal (c : string) (i0 i1 : nat) :
  Fields.no_decimal (substring i0 (i1 - i0) c) = true -> getdouble c i0 i1 = 0.
Proof. apply strtod_no_decimal. Qed.

(** The fields of the sample element set. *)
Example sample_catalog_number : getlong Sample.line2 2 7 = 25544%Z.
Proof. vm_compute. reflexivity. Qed.

Example sample_inclination : getdouble Sample.line2 8 16 = 51.6443.
Proof. unfold getdouble, strtod. cbn -[IZR powerRZ]. simpl. lra. Qed.

Example sample_decay_rate : getdouble Sample.line1 33 43 = 0.00000950.
Proof. unfold getdouble, strtod. cbn -[IZR powerRZ]. simpl. lra. Qed.

Example sample_mean_motion : getdouble Sample.line2 52 63 = 15.49165514.
Proof. unfold getdouble, strtod. cbn -[IZR powerRZ]. simpl. lra. Qed.

Lemma RADIANS_0 : RADIANS 0 = 0.
Proof. unfold RADIANS. lra. Qed.

(** C8, as stated, fails for the epoch year: the two characters [XX] hold no
    number, [getlong] returns [0], and [tle] stores the year 2000. *)
Lemma tle_unparsable_year_not_zero :
  Fields.unparsable Fields.fYE Sample.line1 Sample.line2 = true /\
  Fields.stored Fields.fYE
    (Satellite.tle Sample.GM Sample.RE Sample.J2 Sample.YM "ISS"
       Sample.line1 Sample.line2) = 2000 /\
  Fields.stored Fields.fYE
    (Satellite.tle Sample.GM Sample.RE Sample.J2 Sample.YM "ISS"
       Sample.line1 Sample.line2) <> 0.
Proof.
  assert (Hy : getlong Sample.line1 18 20 = 0%Z) by (vm_compute; reflexivity).
  assert (Hs : Fields.stored Fields.fYE
                 (Satellite.tle Sample.GM Sample.RE Sample.J2 Sample.YM "ISS"
                    Sample.line1 Sample.line2) = 2000).
  { unfold Fields.stored, Satellite.tle. cbn [Satellite.YE].
    rewrite Hy. reflexivity. }
  split; [vm_compute; reflexivity |].
  split; [exact Hs |]. rewrite Hs. lra.
Qed.

Section SilentZero.

Variables GM RE J2 YM : R.
Variables nm l1 l2 : string.

(** C8, amended.  Silent zero on malformed fields: for a field that holds no
    parsable number [getlong] or [getdouble] returns 0 and [tle], a total
    function with no error result, stores what it derives from that 0: the
    year 2000 for the epoch year and 0 for every other field. *)
Theorem tle_unparsable_field (f : Fields.field) :
  Fields.unparsable f l1 l2 = true ->
  Fields.parsed f l1 l2 = 0 /\
  Fields.stored f (Satellite.tle GM RE J2 YM nm l1 l2)
  = match f with Fields.fYE => 2000 | _ => 0 end.
Proof.
  intros Hu. unfold Fields.unparsable in Hu.
  destruct f; cbn [Fields.is_long Fields.text] in Hu;
    first [apply getlong_no_integer in Hu | apply getdouble_no_decimal in Hu];
    unfold Fields.parsed, Fields.stored, Satellite.tle;
    cbn [Satellite.N Satellite.YE Satellite.TE Satellite.M2 Satellite.IN
         Satellite.RA Satellite.EC Satellite.WP Satellite.MA Satellite.MM
         Satellite.RV];
    rewrite Hu; rewrite ?RADIANS_0, ?to_long_IZR;
    (split; [reflexivity |]); try reflexivity; try lra.
Qed.

End SilentZero.

Lemma tle_unparsable_field_witness :
  Fields.parsed Fields.fYE Sample.line1 Sample.line2 = 0 /\
  Fields.stored Fields.fYE
    (Satellite.tle Sample.GM Sample.RE Sample.J2 Sample.YM "ISS"
       Sample.line1 Sample.line2) = 2000.
Proof.
  apply (tle_unparsable_field Sample.GM Sample.RE Sample.J2 Sample.YM "ISS"
           Sample.line1 Sample.line2 Fields.fYE).
  vm_compute. reflexivity.
Defined.

(** ** The loop of [Satellite::predict] *)

Lemma kepler_step (n : nat) (e M E : R) :
  Satellite.kepler (S n) e M E
  = if Rlt_dec (Rabs (Satellite.correction e M E)) 1e-5
    then Some (Satellite.mk_kepler (E - Satellite.correction e M E)
                 (1 - e * cos E) (cos E) (sin E))
    else Satellite.kepler n e M (E - Satellite.correction e M E).
Proof. reflexivity. Qed.

(** More fuel does not change what the loop leaves. *)
Lemma kepler_more_fuel (n m : nat) (e M E : R) (k : Satellite.kepler_t) :
  Satellite.kepler n e M E = Some k -> (n <= m)%nat ->
  Satellite.kepler m e M E = Some k.
Proof.
  revert m E. induction n as [| n IH]; intros m E Hk Hle.
  - discriminate.
  - destruct m as [| m]; [lia |].
    rewrite kepler_step in *.
    destruct (Rlt_dec _ 1e-5); [exact Hk |].
    apply IH; [exact Hk | lia].
Qed.

Lemma denominator_pos (e x : R) : 0 <= e < 1 -> 0 < 1 - e * cos x.
Proof. intros He. pose proof (COS_bound x). nra. Qed.

Lemma correction_eq (e M E : R) :
  0 <= e < 1 ->
  Satellite.correction e M E * (1 - e * cos E) = E - e * sin E - M.
Proof.
  intros He. pose proof (denominator_pos e E He).
  unfold Satellite.correction. field. lra.
Qed.

Lemma Rabs_le_bounds (a b : R) : Rabs a <= b -> - b <= a <= b.
Proof.
  intros Hab. pose proof (Rle_abs a) as H1. pose proof (Rle_abs (- a)) as H2.
  rewrite Rabs_Ropp in H2. lra.
Qed.

Lemma sin_abs_le (x : R) : Rabs (sin x) <= Rabs x.
Proof.
  assert (Hpos : forall y, 0 <= y -> Rabs (sin y) <= y).
  { intros y Hy. pose proof PI_RGT_0 as Hpi. pose proof PI2_3_2 as Hpi3.
    destruct (Rle_dec y PI) as [Hle | Hgt].
    - rewrite Rabs_pos_eq by now apply sin_ge_0.
      destruct Hy as [Hy | <-]; [left; now apply sin_lt_x |].
      rewrite sin_0. lra.
    - pose proof (SIN_bound y). apply Rabs_le. lra. }
  destruct (Rle_dec 0 x) as [Hx | Hx].
  - rewrite (Rabs_pos_eq x) by exact Hx. now apply Hpos.
  - rewrite <- (Rabs_Ropp (sin x)), <- sin_neg, <- (Rabs_Ropp x).
    rewrite (Rabs_pos_eq (- x)) by lra. apply Hpos. lra.
Qed.

Lemma one_minus_cos_bound (x : R) : 0 <= 1 - cos x <= x * x / 2.
Proof.
  replace x with (2 * (x / 2)) at 1 2 by field.
  rewrite cos_2a_sin.
  pose proof (sin_abs_le (x / 2)) as Hs.
  assert (Hsq : sin (x / 2) * sin (x / 2) <= x / 2 * (x / 2)).
  { apply Rsqr_le_abs_1 in Hs. unfold Rsqr in Hs. exact Hs. }
  pose proof (Rle_0_sqr (sin (x / 2))) as Hp. unfold Rsqr in Hp.
  split; nra.
Qed.

Lemma sin_minus_arg_bound (x : R) :
  Rabs x <= 1 -> Rabs (sin x - x) <= Rabs x.
Proof.
  intros Hx. pose proof PI2_3_2 as Hpi3.
  assert (Hpos : forall y, 0 <= y <= 1 -> - y <= sin y - y <= 0).
  { intros y [Hy0 Hy1].
    assert (0 <= sin y) by (apply sin_ge_0; lra).
    pose proof (sin_abs_le y) as Hs.
    rewrite !Rabs_pos_eq in Hs by lra. lra. }
  destruct (Rle_dec 0 x) as [H0 | H0].
  - rewrite (Rabs_pos_eq x) in * by exact H0.
    apply Rabs_le. specialize (Hpos x). lra.
  - assert (Hn : Rabs x = - x) by (apply Rabs_left; lra).
    rewrite Hn in *. specialize (Hpos (- x)). rewrite sin_neg in Hpos.
    apply Rabs_le. lra.
Qed.

(** The residual after the correction [D], in terms of [D]. *)
Lemma residual_after_step (e M E : R) :
  0 <= e < 1 ->
  let D := Satellite.correction e M E in
  Satellite.residual e M (E - D)
  = e * (sin E * (1 - cos D) + cos E * (sin D - D)).
Proof.
  intros He D. pose proof (correction_eq e M E He) as Hc. fold D in Hc.
  unfold Satellite.residual. rewrite sin_minus. nra.
Qed.

(** When the loop breaks the residual of Kepler's equation is below the
    tolerance. *)
Lemma residual_at_exit (e M E : R) :
  0 <= e <= 0.9 ->
  Rabs (Satellite.correction e M E) < 1e-5 ->
  Rabs (Satellite.residual e M (E - Satellite.correction e M E)) < 1e-5.
Proof.
  intros He HD.
  rewrite residual_after_step by lra.
  set (D := Satellite.correction e M E) in *.
  pose proof (one_minus_cos_bound D) as [Ha0 Ha1].
  pose proof (sin_minus_arg_bound D ltac:(lra)) as Hb.
  pose proof (SIN_bound E) as Hs. pose proof (COS_bound E) as Hc.
  apply Rabs_def2 in HD. apply Rabs_le_bounds in Hb.
  assert (Habs : Rabs D < 1e-5) by (apply Rabs_def1; lra).
  assert (HDD : D * D <= 1e-10).
  { replace (D * D) with (Rabs D * Rabs D)
      by (rewrite <- Rabs_mult; apply Rabs_pos_eq; nra).
    pose proof (Rabs_pos D). nra. }
  set (A := 1 - cos D) in *. set (B := sin D - D) in *.
  assert (HB : - 1e-5 < B < 1e-5).
  { destruct (Rle_dec 0 D).
    - rewrite Rabs_pos_eq in Hb by lra. lra.
    - rewrite Rabs_left in Hb by lra. lra. }
  assert (HsA : - A <= sin E * A <= A) by (split; nra).
  assert (HcB : - 1e-5 < cos E * B < 1e-5) by (split; nra).
  apply Rabs_def1; nra.
Qed.

Lemma kepler_residual (n : nat) (e M E : R) (k : Satellite.kepler_t) :
  0 <= e <= 0.9 ->
  Satellite.kepler n e M E = Some k ->
  Rabs (Satellite.residual e M (Satellite.k_EA k)) < 1e-5.
Proof.
  intros He. revert E. induction n as [| n IH]; intros E Hk.
  - discriminate.
  - rewrite kepler_step in Hk.
    destruct (Rlt_dec _ 1e-5) as [HD | HD].
    + injection Hk as <-. cbn [Satellite.k_EA].
      now apply residual_at_exit.
    + now apply IH with (E := E - Satellite.correction e M E).
Qed.

(** On [[0, PI]] the sine lies below its tangents. *)
Lemma sin_below_tangent (x y : R) :
  0 <= x <= PI -> 0 <= y <= PI -> sin y <= sin x + (y - x) * cos x.
Proof.
  intros Hx Hy.
  assert (Hder : forall a b c : R,
             a <= c <= b -> derivable_pt_lim sin c (cos c))
    by (intros; apply derivable_pt_lim_sin).
  destruct (Rtotal_order y x) as [Hlt | [-> | Hgt]].
  - destruct (MVT_cor2 sin cos y x Hlt (Hder y x)) as (c & Hc & Hyc).
    assert (cos x <= cos c) by (apply cos_decr_1; lra).
    nra.
  - lra.
  - destruct (MVT_cor2 sin cos x y Hgt (Hder x y)) as (c & Hc & Hxc).
    assert (cos c <= cos x) by (apply cos_decr_1; lra).
    nra.
Qed.

Section Descent.

Variables e M : R.
Hypothesis e_range : 0 <= e < 1.
Hypothesis M_nonneg : 0 <= M.

(** From a point of [[0, PI]] where the residual is not negative, a pass of
    the loop moves down, stays in [[0, PI]] and keeps the residual not
    negative. *)
Lemma descent_step (x : R) :
  0 <= x <= PI -> 0 <= Satellite.residual e M x ->
  let D := Satellite.correction e M x in
  0 <= D /\ 0 <= x - D /\ 0 <= Satellite.residual e M (x - D).
Proof.
  intros Hx Hres D.
  pose proof (denominator_pos e x e_range) as Hden.
  pose proof (correction_eq e M x e_range) as Hc. fold D in Hc.
  unfold Satellite.residual in Hres.
  assert (HD : 0 <= D).
  { unfold D, Satellite.correction. apply Rmult_le_pos; [exact Hres |].
    apply Rlt_le. now apply Rinv_0_lt_compat. }
  assert (Hdown : 0 <= x - D).
  { pose proof (sin_below_tangent x 0 Hx ltac:(pose proof PI_RGT_0; lra))
      as Ht. rewrite sin_0 in Ht.
    assert (Hle : D * (1 - e * cos x) <= x * (1 - e * cos x)) by nra.
    apply Rmult_le_reg_r in Hle; lra. }
  repeat split; try assumption.
  pose proof (sin_below_tangent x (x - D) Hx ltac:(lra)) as Ht.
  unfold Satellite.residual. nra.
Qed.

Lemma descent_halts (n : nat) (x : R) :
  0 <= x <= PI -> 0 <= Satellite.residual e M x -> x <= INR n * 1e-5 ->
  exists k : Satellite.kepler_t, Satellite.kepler (S n) e M x = Some k.
Proof.
  revert x. induction n as [| n IH]; intros x Hx Hres Hn;
    destruct (descent_step x Hx Hres) as (HD & Hdown & Hres');
    rewrite kepler_step;
    destruct (Rlt_dec _ 1e-5) as [Hlt | Hge]; try (eexists; reflexivity).
  - exfalso. apply Hge. cbn [INR] in Hn.
    replace (Satellite.correction e M x) with 0 by lra.
    rewrite Rabs_R0. lra.
  - rewrite Rabs_pos_eq in Hge by exact HD.
    apply IH; [lra | exact Hres' |].
    rewrite S_INR in Hn. lra.
Qed.

Lemma descent_halts_from (x : R) :
  0 <= x <= PI -> 0 <= Satellite.residual e M x -> Satellite.halts e M x.
Proof.
  intros Hx Hres.
  destruct (archimed (x * 1e5)) as [Hup _].
  assert (Hz : (0 <= up (x * 1e5))%Z).
  { apply le_IZR. lra. }
  exists (S (Z.to_nat (up (x * 1e5)))).
  apply descent_halts; try assumption.
  rewrite INR_IZR_INZ, Z2Nat.id by exact Hz. lra.
Qed.

End Descent.

Lemma PI_lower_bound : 3.135 < PI.
Proof.
  pose proof (PI_2_3_7_ineq 0) as [Hlow _].
  unfold sum_f_R0, tg_alt, PI_2_3_7_tg, Ratan_seq in Hlow.
  simpl in Hlow. lra.
Qed.

(** The first pass, from [EA = M] in [[0, PI]], does not overshoot [PI]. *)
Lemma first_step_bound (e M : R) :
  0 <= e <= 0.9 -> 0 <= M <= PI ->
  e * sin M <= (PI - M) * (1 - e * cos M).
Proof.
  intros He HM. pose proof PI_lower_bound as Hpi.
  pose proof (sin_cos_sqr M) as Hsc.
  assert (Hs0 : 0 <= sin M) by (apply sin_ge_0; lra).
  destruct (Rle_dec (PI / 2) M) as [Hhigh | Hlow].
  - assert (Hc : cos M <= 0) by (apply cos_le_0; lra).
    assert (Hs : sin M <= PI - M).
    { rewrite <- sin_PI_x. pose proof (sin_abs_le (PI - M)) as Hb.
      rewrite (Rabs_pos_eq (PI - M)) in Hb by lra.
      pose proof (Rle_abs (sin (PI - M))). lra. }
    assert (Hec : 0 <= - (e * cos M)) by nra.
    assert (Hprod : 0 <= (PI - M) * - (e * cos M))
      by (apply Rmult_le_pos; lra).
    assert (Hes : e * sin M <= sin M) by nra.
    lra.
  - assert (Hc0 : 0 <= cos M) by (apply cos_ge_0; lra).
    set (s := sin M) in *. set (c := cos M) in *.
    destruct (Rle_dec M (PI / 3)) as [Hthird | Hmid].
    + assert (Hq : 0.9 * (s + 2.09 * c) <= 2.09).
      { pose proof (Rle_0_sqr (2.09 * s - c)) as Hsq. unfold Rsqr in Hsq.
        assert (Hsum : (s + 2.09 * c) * (s + 2.09 * c) <= 5.3681) by nra.
        destruct (Rle_dec (s + 2.09 * c) 2.32) as [Hle | Hgt]; nra. }
      assert (Hbase : e * s <= 2.09 * (1 - e * c)) by nra.
      assert (Hden : 0 <= 1 - e * c) by nra.
      nra.
    + assert (Hc1 : c <= 1 / 2).
      { unfold c. rewrite <- cos_PI3. apply cos_decr_1; lra. }
      assert (Hq : s <= 1.7416 - 1.5675 * c).
      { destruct (Rle_dec s (1.7416 - 1.5675 * c)) as [Hle | Hgt];
          [exact Hle | exfalso].
        assert (Hr : 0 <= 1.7416 - 1.5675 * c) by lra.
        assert (Hsq : (1.7416 - 1.5675 * c) * (1.7416 - 1.5675 * c) < s * s)
          by nra.
        nra. }
      assert (Hbase : e * s <= 1.5675 * (1 - e * c)) by nra.
      assert (Hden : 0 <= 1 - e * c) by nra.
      nra.
Qed.

Lemma kepler_halts_first_half (e M : R) :
  0 <= e <= 0.9 -> 0 <= M <= PI -> Satellite.halts e M M.
Proof.
  intros He HM.
  assert (He1 : 0 <= e < 1) by lra.
  pose proof (denominator_pos e M He1) as Hden.
  pose proof (correction_eq e M M He1) as Hc.
  pose proof (first_step_bound e M He HM) as Hb.
  assert (Hs0 : 0 <= sin M) by (apply sin_ge_0; lra).
  set (D := Satellite.correction e M M) in *.
  assert (HD : D <= 0).
  { assert (D * (1 - e * cos M) <= 0 * (1 - e * cos M)) by nra.
    apply Rmult_le_reg_r in H; lra. }
  assert (Hup : M - D <= PI).
  { assert (- D * (1 - e * cos M) <= (PI - M) * (1 - e * cos M)) by nra.
    apply Rmult_le_reg_r in H; lra. }
  assert (Hres : 0 <= Satellite.residual e M (M - D)).
  { pose proof (sin_below_tangent M (M - D) HM ltac:(lra)) as Ht.
    unfold Satellite.residual. nra. }
  destruct (descent_halts_from e M He1 ltac:(lra) (M - D) ltac:(lra) Hres)
    as (n & k & Hk).
  exists (S n). rewrite kepler_step. fold D.
  destruct (Rlt_dec (Rabs D) 1e-5); eauto.
Qed.

(** The loop does not see a shift of both anomalies by a period of the sine
    and the cosine. *)
Lemma halts_shift (e M E s : R) :
  (forall x, sin (x + s) = sin x) -> (forall x, cos (x + s) = cos x) ->
  Satellite.halts e M E -> Satellite.halts e (M + s) (E + s).
Proof.
  intros Hsin Hcos (n & k & Hk). revert E k Hk.
  induction n as [| n IH]; intros E k Hk; [discriminate |].
  assert (HD : Satellite.correction e (M + s) (E + s)
               = Satellite.correction e M E).
  { unfold Satellite.correction. rewrite Hsin, Hcos. f_equal. ring. }
  rewrite kepler_step in Hk.
  destruct (Rlt_dec (Rabs (Satellite.correction e M E)) 1e-5) as [Hlt | Hge].
  - exists 1%nat. rewrite kepler_step, HD.
    destruct (Rlt_dec _ 1e-5); [eauto | contradiction].
  - destruct (IH _ _ Hk) as (m & k' & Hk').
    exists (S m). rewrite kepler_step, HD.
    destruct (Rlt_dec _ 1e-5); [contradiction |].
    replace (E + s - Satellite.correction e M E)
      with (E - Satellite.correction e M E + s) by ring.
    eauto.
Qed.

(** Nor a change of sign of both. *)
Lemma halts_opp (e M E : R) :
  Satellite.halts e M E -> Satellite.halts e (- M) (- E).
Proof.
  intros (n & k & Hk). revert E k Hk.
  induction n as [| n IH]; intros E k Hk; [discriminate |].
  assert (HD : Satellite.correction e (- M) (- E)
               = - Satellite.correction e M E).
  { unfold Satellite.correction, Rdiv. rewrite sin_neg, cos_neg. ring. }
  rewrite kepler_step in Hk.
  destruct (Rlt_dec (Rabs (Satellite.correction e M E)) 1e-5) as [Hlt | Hge].
  - exists 1%nat. rewrite kepler_step, HD, Rabs_Ropp.
    destruct (Rlt_dec _ 1e-5); [eauto | contradiction].
  - destruct (IH _ _ Hk) as (m & k' & Hk').
    exists (S m). rewrite kepler_step, HD, Rabs_Ropp.
    destruct (Rlt_dec _ 1e-5); [contradiction |].
    replace (- E - - Satellite.correction e M E)
      with (- (E - Satellite.correction e M E)) by ring.
    eauto.
Qed.

Lemma sin_cos_whole_turns (z : Z) (x : R) :
  sin (x + IZR z * (2 * PI)) = sin x /\ cos (x + IZR z * (2 * PI)) = cos x.
Proof.
  destruct (Z_le_gt_dec 0 z) as [Hz | Hz].
  - replace (IZR z * (2 * PI)) with (2 * INR (Z.to_nat z) * PI)
      by (rewrite INR_IZR_INZ, Z2Nat.id by exact Hz; ring).
    split; [apply sin_period | apply cos_period].
  - rewrite <- (sin_period (x + IZR z * (2 * PI)) (Z.to_nat (- z))).
    rewrite <- (cos_period (x + IZR z * (2 * PI)) (Z.to_nat (- z))).
    replace (x + IZR z * (2 * PI) + 2 * INR (Z.to_nat (- z)) * PI) with x
      by (rewrite INR_IZR_INZ, Z2Nat.id, opp_IZR by lia; ring).
    split; reflexivity.
Qed.

(** The loop of [predict] reaches its [break] for every mean anomaly when
    the eccentricity is at most [0.9]. *)
Lemma kepler_halts (e M : R) : 0 <= e <= 0.9 -> Satellite.halts e M M.
Proof.
  intros He. pose proof PI_RGT_0 as Hpi.
  set (z := Zfloor (M / (2 * PI))).
  pose proof (Zfloor_bound (M / (2 * PI))) as [Hlo Hhi]. fold z in Hlo, Hhi.
  assert (HM : M = M / (2 * PI) * (2 * PI)) by (field; lra).
  set (M0 := M - IZR z * (2 * PI)).
  assert (HM0 : 0 <= M0 < 2 * PI).
  { unfold M0. split.
    - apply Rmult_le_compat_r with (r := 2 * PI) in Hlo; lra.
    - apply Rmult_lt_compat_r with (r := 2 * PI) in Hhi; lra. }
  destruct (Rle_dec M0 PI) as [Hfirst | Hsecond].
  - replace M with (M0 + IZR z * (2 * PI)) by (unfold M0; ring).
    apply halts_shift; try (intros x; apply sin_cos_whole_turns).
    apply kepler_halts_first_half; [exact He | lra].
  - replace M with (- (2 * PI - M0) + IZR (z + 1) * (2 * PI))
      by (unfold M0; rewrite plus_IZR; ring).
    apply halts_shift; try (intros x; apply sin_cos_whole_turns).
    apply halts_opp.
    apply kepler_halts_first_half; [exact He | lra].
Qed.

(** [predict] returns a state as soon as its loop, started at the mean
    anomaly left by [wrap], reaches its [break]. *)
Lemma predict_completes (YM YG G0 WE WW MAS0 MASD : R)
    (sat : Satellite.t) (dt : DateTime.t) :
  let M := snd (Satellite.wrap (Satellite.mean_anomaly sat dt)) in
  Satellite.halts (Satellite.EC sat) M M ->
  exists (fuel : nat) (st : Satellite.state),
    Satellite.predict YM YG G0 WE WW MAS0 MASD fuel sat dt = Some st.
Proof.
  intros M (fuel & k & Hk). exists fuel.
  unfold Satellite.predict. unfold M, Satellite.wrap in Hk. cbn [snd] in Hk.
  unfold Satellite.wrap. rewrite Hk. eexists. reflexivity.
Qed.

(** C1.  Kepler solution: for every mean anomaly [M] and every eccentricity
    [e] of [[0, 0.9]], the loop of [Satellite::predict], started at
    [EA = M], leaves an eccentric anomaly, and the one it leaves satisfies
    [|EA - e * sin EA - M| < 1e-5]. *)
Theorem kepler_solution_correct (e M : R) :
  0 <= e <= 0.9 ->
  (exists (fuel : nat) (k : Satellite.kepler_t),
      Satellite.kepler fuel e M M = Some k) /\
  (forall (fuel : nat) (k : Satellite.kepler_t),
      Satellite.kepler fuel e M M = Some k ->
      Rabs (Satellite.k_EA k - e * sin (Satellite.k_EA k) - M) < 1e-5).
Proof.
  intros He. split.
  - now apply kepler_halts.
  - intros fuel k Hk. now apply (kepler_residual fuel e M M k).
Qed.

Lemma kepler_solution_correct_witness :
  (exists (fuel : nat) (k : Satellite.kepler_t),
      Satellite.kepler fuel 0.5 1 1 = Some k) /\
  (forall (fuel : nat) (k : Satellite.kepler_t),
      Satellite.kepler fuel 0.5 1 1 = Some k ->
      Rabs (Satellite.k_EA k - 0.5 * sin (Satellite.k_EA k) - 1) < 1e-5).
Proof.
  apply (kepler_solution_correct 0.5 1). lra.
Defined.



(** The sample satellite half a day before its epoch: [predict] returns. *)
Lemma predict_slow_sat_completes :
  exists (fuel : nat) (st : Satellite.state),
    Satellite.predict Sample.YM Sample.YG Sample.G0 Sample.WE Sample.WW
      Sample.MAS0 Sample.MASD fuel Sample.slow_sat Sample.half_day_before
    = Some st.
Proof.
  apply predict_completes. apply kepler_halts.
  unfold Sample.slow_sat. cbn [Satellite.EC]. lra.
Qed.

(** ** Degrees and radians *)

(** [DEGREES] and [RADIANS] are inverse of each other. *)
Theorem degrees_radians_inverse (x : R) :
  DEGREES (RADIANS x) = x /\ RADIANS (DEGREES x) = x.
Proof.
  pose proof PI_RGT_0 as Hpi. unfold DEGREES, RADIANS.
  split; field; lra.
Qed.

(** ** Day numbers *)

Lemma day_numbers_back_true :
  forallb (fun i =>
    forallb (fun j =>
               let dn := (Julian.first_day + 1000 * i + j)%Z in
               implb (dn <=? Julian.last_day)%Z (Julian.back_ok dn))
            (Calendar.range 0 1000))
          (Calendar.range 0 74) = true.
Proof. vm_compute. reflexivity. Qed.

Lemma back_ok_in_range (dn : Z) :
  (Julian.first_day <= dn <= Julian.last_day)%Z -> Julian.back_ok dn = true.
Proof.
  intros Hdn. unfold Julian.first_day, Julian.last_day in Hdn.
  pose proof day_numbers_back_true as Hall.
  set (i := ((dn - 693670) / 1000)%Z).
  set (j := ((dn - 693670) mod 1000)%Z).
  pose proof (Z.div_mod (dn - 693670) 1000 ltac:(lia)) as Hdm.
  pose proof (Z.mod_pos_bound (dn - 693670) 1000 ltac:(lia)) as Hj.
  fold i j in Hdm, Hj.
  assert (Hi : (0 <= i < 74)%Z).
  { unfold i. split.
    - apply Z.div_pos; lia.
    - apply Z.div_lt_upper_bound; lia. }
  apply forallb_range with (x := i) in Hall; [| lia].
  apply forallb_range with (x := j) in Hall; [| lia].
  cbv zeta in Hall. unfold Julian.first_day, Julian.last_day in Hall.
  replace (693670 + 1000 * i + j)%Z with dn in Hall by lia.
  assert (Hle : (dn <=? 766718)%Z = true) by (apply Z.leb_le; lia).
  rewrite Hle in Hall. exact Hall.
Qed.

Lemma dates_agree_true :
  forallb (fun y =>
    forallb (fun m =>
      forallb (fun d =>
                 implb (Julian.in_fndate_range y m d) (Julian.agrees y m d))
              (Calendar.range 1 31))
            (Calendar.range 1 12))
          (Calendar.range 1900 201) = true.
Proof. vm_compute. reflexivity. Qed.

Lemma leap_gaps_true :
  forallb Julian.leap_gap (Calendar.range 1900 201) = true.
Proof. vm_compute. reflexivity. Qed.

Lemma valid_date_bounds (y m d : Z) :
  Calendar.valid_date y m d = true ->
  (1900 <= y <= 2100 /\ 1 <= m <= 12 /\ 1 <= d <= 31)%Z.
Proof.
  intros Hv. unfold Calendar.valid_date in Hv.
  repeat (apply andb_prop in Hv; destruct Hv as [Hv ?]).
  assert (Calendar.days_in_month y m <= 31)%Z.
  { unfold Calendar.days_in_month.
    repeat match goal with |- context [if ?b then _ else _] => destruct b end;
      lia. }
  lia.
Qed.

Section DayNumbers.

Variable YM : R.
Hypothesis YM_julian : YM = 365.25.

(** Day number to date and back: for every day number from 1900 Mar 01 to
    2100 Feb 28, [fndate] gives a date of the Gregorian calendar within these
    bounds, and [fnday] of that date is the day number. *)
Theorem fnday_fndate_roundtrip (dn : Z) :
  (DateTime.fnday YM 1900 3 1 <= dn <= DateTime.fnday YM 2100 2 28)%Z ->
  exists y m d : Z,
    DateTime.fndate dn = (y, m, d) /\
    Julian.in_fndate_range y m d = true /\
    DateTime.fnday YM y m d = dn.
Proof.
  rewrite !(fnday_fnday_quot YM YM_julian). intros Hdn.
  change (Calendar.fnday_quot 1900 3 1) with Julian.first_day in Hdn.
  change (Calendar.fnday_quot 2100 2 28) with Julian.last_day in Hdn.
  apply back_ok_in_range in Hdn. unfold Julian.back_ok in Hdn.
  rewrite fndate_fndate_quot.
  destruct (Calendar.fndate_quot dn) as [[y m] d].
  apply andb_prop in Hdn. destruct Hdn as [Hr He].
  exists y, m, d. rewrite (fnday_fnday_quot YM YM_julian).
  repeat split; [exact Hr | now apply Z.eqb_eq].
Qed.

(** The day number of [fnday] is the Julian day number less 1721410, that is
    the Julian date at 0 h less 1721409.5, as its comment says, for the
    dates from 1900 Mar 01 to 2100 Feb 28. *)
Theorem fnday_is_julian_day (y m d : Z) :
  Julian.in_fndate_range y m d = true ->
  DateTime.fnday YM y m d = (Julian.day_number y m d - 1721410)%Z.
Proof.
  intros Hr. rewrite (fnday_fnday_quot YM YM_julian).
  assert (Hv : Calendar.valid_date y m d = true).
  { pose proof Hr as Hr'. unfold Julian.in_fndate_range in Hr'.
    apply andb_prop in Hr'. destruct Hr' as [Hr' _].
    apply andb_prop in Hr'. destruct Hr' as [Hr' _]. exact Hr'. }
  destruct (valid_date_bounds y m d Hv) as (Hy & Hm & Hd).
  pose proof dates_agree_true as Hall.
  apply forallb_range with (x := y) in Hall; [| lia].
  apply forallb_range with (x := m) in Hall; [| lia].
  apply forallb_range with (x := d) in Hall; [| lia].
  rewrite Hr in Hall. now apply Z.eqb_eq.
Qed.

(** [fnday] counts a 29 February in every fourth year, the years 1900 and
    2100 included, which the Gregorian calendar excludes: from 28 February
    to 1 March the day number grows by 2 when the year is a multiple of 4
    and by 1 otherwise. *)
Theorem fnday_leap_every_fourth_year (y : Z) :
  (1900 <= y <= 2100)%Z ->
  (DateTime.fnday YM y 3 1 - DateTime.fnday YM y 2 28
   = if y mod 4 =? 0 then 2 else 1)%Z.
Proof.
  intros Hy. rewrite !(fnday_fnday_quot YM YM_julian).
  pose proof leap_gaps_true as Hall.
  apply forallb_range with (x := y) in Hall; [| lia].
  now apply Z.eqb_eq.
Qed.

End DayNumbers.

Lemma fnday_fndate_roundtrip_witness :
  exists y m d : Z,
    DateTime.fndate 730135 = (y, m, d) /\
    Julian.in_fndate_range y m d = true /\
    DateTime.fnday 365.25 y m d = 730135%Z.
Proof.
  apply (fnday_fndate_roundtrip 365.25 eq_refl 730135).
  rewrite !(fnday_fnday_quot 365.25 eq_refl). vm_compute.
  split; discriminate.
Defined.

Lemma fnday_is_julian_day_witness :
  DateTime.fnday 365.25 2000 1 1 = (Julian.day_number 2000 1 1 - 1721410)%Z.
Proof.
  apply (fnday_is_julian_day 365.25 eq_refl 2000 1 1).
  vm_compute. reflexivity.
Defined.

Lemma fnday_leap_every_fourth_year_witness :
  (DateTime.fnday 365.25 1900 3 1 - DateTime.fnday 365.25 1900 2 28
   = if 1900 mod 4 =? 0 then 2 else 1)%Z.
Proof.
  apply (fnday_leap_every_fourth_year 365.25 eq_refl 1900). lia.
Defined.

(** ** Time of day *)

Lemma to_long_range (x : R) (n : Z) :
  0 <= x < IZR n -> (0 <= to_long x < n)%Z.
Proof.
  intros [Hx0 Hxn]. pose proof (to_long_bound_nonneg x Hx0) as [Hlo Hhi].
  split.
  - assert (Hm : (-1 < to_long x)%Z) by (apply lt_IZR; lra). lia.
  - apply lt_IZR. lra.
Qed.

Lemma gettime_hms_fields (TN : R) :
  0 <= TN < 1 ->
  exists h m s : Z,
    DateTime.gettime_hms TN = (h, m, s) /\
    (0 <= h <= 23 /\ 0 <= m <= 59 /\ 0 <= s <= 59)%Z /\
    IZR (Calendar.second_of_day h m s) - 1 < TN * 86400
      < IZR (Calendar.second_of_day h m s) + 2.
Proof.
  intros HTN. unfold DateTime.gettime_hms, to_int.
  set (t := TN * 24).
  assert (Ht : 0 <= t < IZR 24) by (unfold t; lra).
  pose proof (to_long_range t 24 Ht) as Hh.
  pose proof (to_long_bound_nonneg t ltac:(lra)) as Hhb.
  set (h := to_long t) in *.
  set (t1 := (t - IZR h) * 60).
  assert (Ht1 : 0 <= t1 < IZR 60) by (unfold t1; lra).
  pose proof (to_long_range t1 60 Ht1) as Hm.
  pose proof (to_long_bound_nonneg t1 ltac:(lra)) as Hmb.
  set (m := to_long t1) in *.
  set (t2 := (t1 - IZR m) * 60).
  assert (Ht2 : 0 <= t2 < IZR 60) by (unfold t2; lra).
  pose proof (to_long_range t2 60 Ht2) as Hs.
  pose proof (to_long_bound_nonneg t2 ltac:(lra)) as Hsb.
  set (s := to_long t2) in *.
  exists h, m, s. split; [reflexivity |]. split; [lia |].
  unfold Calendar.second_of_day.
  rewrite !plus_IZR, !mult_IZR.
  unfold t2, t1, t in *. lra.
Qed.

(** For a fraction of day in [[0, 1)], [gettime] reads an hour in [0 .. 23],
    a minute and a second in [0 .. 59], and the second they make is the one
    that the time of day [TN * 86400] is in, or a neighbour of it: with
    exact products it is that one, and a rounded product can put a cast on
    the other side of a whole second. *)
Theorem gettime_hms_range (TN : R) :
  0 <= TN < 1 ->
  exists h m s : Z,
    DateTime.gettime_hms TN = (h, m, s) /\
    (0 <= h <= 23 /\ 0 <= m <= 59 /\ 0 <= s <= 59)%Z /\
    IZR (Calendar.second_of_day h m s) - 1 < TN * 86400
      < IZR (Calendar.second_of_day h m s) + 2.
Proof. apply gettime_hms_fields. Qed.

Lemma gettime_hms_range_witness :
  exists h m s : Z,
    DateTime.gettime_hms 0.75 = (h, m, s) /\
    (0 <= h <= 23 /\ 0 <= m <= 59 /\ 0 <= s <= 59)%Z /\
    IZR (Calendar.second_of_day h m s) - 1 < 0.75 * 86400
      < IZR (Calendar.second_of_day h m s) + 2.
Proof.
  apply (gettime_hms_range 0.75). lra.
Defined.

(** ** Advancing a [DateTime] *)

(** [add] moves the instant by [days], whatever their sign, and two
    additions move it as one addition of the sum. *)
Theorem add_moves_instant (dt : DateTime.t) (a b : R) :
  instant (DateTime.add dt a) = instant dt + a /\
  instant (DateTime.add (DateTime.add dt a) b)
  = instant (DateTime.add dt (a + b)).
Proof.
  unfold instant. rewrite !add_instant. split; ring.
Qed.

(** From a fraction in [[0, 1)] and for a step of [days > 0], of at most
    [1e9] days, [add] never gives an earlier [DateTime], by the day number
    and then the fraction, and the fraction it leaves is again in
    [[0, 1)]. *)
Theorem add_positive_not_earlier (dt : DateTime.t) (days : R) :
  0 <= DateTime.TN dt < 1 -> 0 < days <= 1e9 ->
  ~ earlier (DateTime.add dt days) dt /\
  0 <= DateTime.TN (DateTime.add dt days) < 1.
Proof.
  intros HTN Hd.
  assert (Hs : 0 <= DateTime.TN dt + days) by lra.
  split; [| now apply add_fraction_nonneg].
  unfold earlier, DateTime.add. cbn [DateTime.DN DateTime.TN].
  pose proof (to_long_bound_nonneg _ Hs) as [Hlo Hhi].
  set (k := to_long (DateTime.TN dt + days)) in *.
  assert (Hk : (-1 < k)%Z) by (apply lt_IZR; lra).
  intros [Hlt | [Heq Hlt]].
  - lia.
  - assert (Hk0 : k = 0%Z) by lia. rewrite Hk0 in Hlt. lra.
Qed.

Lemma add_positive_not_earlier_witness :
  ~ earlier (DateTime.add Sample.quarter_day 0.875) Sample.quarter_day /\
  0 <= DateTime.TN (DateTime.add Sample.quarter_day 0.875) < 1.
Proof.
  apply (add_positive_not_earlier Sample.quarter_day 0.875);
    unfold Sample.quarter_day; cbn [DateTime.TN]; lra.
Defined.

(** [roundup (t)], from a fraction of day in [[0, 1)] and for a step
    [0 < t <= 1], never moves the instant back; it leaves it at the day
    number plus a whole multiple of [t], with a fraction in [[0, 1)]. *)
Theorem roundup_lands_on_multiple (dt : DateTime.t) (tt : R) :
  0 <= DateTime.TN dt < 1 -> 0 < tt <= 1 ->
  let dt' := DateTime.roundup dt tt in
  instant dt <= instant dt' /\
  (exists k : Z,
      (0 <= k)%Z /\ instant dt' = IZR (DateTime.DN dt) + IZR k * tt) /\
  0 <= DateTime.TN dt' < 1.
Proof.
  intros HTN Htt dt'.
  assert (Hq : 0 <= DateTime.TN dt / tt).
  { apply Rmult_le_pos; [lra |]. apply Rlt_le, Rinv_0_lt_compat. lra. }
  pose proof (to_long_bound_nonneg _ Hq) as [Hlo Hhi].
  assert (HTq : DateTime.TN dt = DateTime.TN dt / tt * tt) by (field; lra).
  set (k := to_long (DateTime.TN dt / tt)) in *.
  assert (Hkz : (0 <= k)%Z).
  { assert (Hm : (-1 < k)%Z) by (apply lt_IZR; lra). lia. }
  assert (Hf : 0 <= fmod (DateTime.TN dt) tt < tt).
  { unfold fmod. fold k. split.
    - apply Rmult_le_compat_r with (r := tt) in Hlo; lra.
    - apply Rmult_lt_compat_r with (r := tt) in Hhi; lra. }
  assert (Hsum : DateTime.TN dt + (tt - fmod (DateTime.TN dt) tt)
                 = IZR (k + 1) * tt).
  { unfold fmod. fold k. rewrite plus_IZR. ring. }
  assert (Hpos : 0 <= DateTime.TN dt + (tt - fmod (DateTime.TN dt) tt))
    by lra.
  pose proof (to_long_bound_nonneg _ Hpos) as Hb.
  assert (Hinst : instant dt'
                  = instant dt + (tt - fmod (DateTime.TN dt) tt)).
  { unfold instant, dt', DateTime.roundup. cbn [DateTime.DN DateTime.TN].
    rewrite plus_IZR. ring. }
  repeat split.
  - rewrite Hinst. lra.
  - exists (k + 1)%Z. split; [lia |].
    rewrite Hinst. unfold instant. rewrite <- Hsum. ring.
  - unfold dt', DateTime.roundup. cbn [DateTime.TN]. lra.
  - unfold dt', DateTime.roundup. cbn [DateTime.TN]. lra.
Qed.

Lemma roundup_lands_on_multiple_witness :
  let dt' := DateTime.roundup Sample.quarter_day 0.125 in
  instant Sample.quarter_day <= instant dt' /\
  (exists k : Z,
      (0 <= k)%Z /\
      instant dt' = IZR (DateTime.DN Sample.quarter_day) + IZR k * 0.125) /\
  0 <= DateTime.TN dt' < 1.
Proof.
  apply (roundup_lands_on_multiple Sample.quarter_day 0.125);
    unfold Sample.quarter_day; cbn [DateTime.TN]; lra.
Defined.

(** ** The frame and the position of the observer *)

Lemma vec_eq (a b : Vec3) :
  v0 a = v0 b -> v1 a = v1 b -> v2 a = v2 b -> a = b.
Proof. destruct a, b. cbn. intros -> -> ->. reflexivity. Qed.

Section ObserverFrame.

Variables RE FL W0 : R.
Variable nm : string.
Variables lat lng hgt : R.

Let obs := Observer.make RE FL W0 nm lat lng hgt.
Let obs0 := Observer.make RE FL W0 nm lat lng 0.

(** The frame of the observer is right handed: East cross North is Up, North
    cross Up is East and Up cross East is North. *)
Theorem observer_triad_right_handed :
  cross (Observer.E obs) (Observer.N obs) = Observer.U obs /\
  cross (Observer.N obs) (Observer.U obs) = Observer.E obs /\
  cross (Observer.U obs) (Observer.E obs) = Observer.N obs.
Proof.
  unfold obs, Observer.make, cross.
  cbn [Observer.U Observer.E Observer.N v0 v1 v2].
  pose proof (sin_cos_sqr (RADIANS lat)) as Ha.
  pose proof (sin_cos_sqr (RADIANS lng)) as Ho.
  set (sa := sin (RADIANS lat)) in *. set (ca := cos (RADIANS lat)) in *.
  set (so := sin (RADIANS lng)) in *. set (co := cos (RADIANS lng)) in *.
  assert (H1 : ca * (so * so + co * co) = ca) by (rewrite Ho; ring).
  assert (H2 : sa * (so * so + co * co) = sa) by (rewrite Ho; ring).
  assert (H3 : co * (sa * sa + ca * ca) = co) by (rewrite Ha; ring).
  assert (H4 : so * (sa * sa + ca * ca) = so) by (rewrite Ha; ring).
  repeat split; apply vec_eq; cbn [v0 v1 v2]; lra.
Qed.

(** The velocity of the observer is perpendicular to its position and to the
    polar axis, and its length is the rotation rate times the distance from
    that axis. *)
Theorem observer_velocity_tangential :
  dot (Observer.V obs) (Observer.O obs) = 0 /\
  v2 (Observer.V obs) = 0 /\
  Observer.V obs = cross (vec 0 0 W0) (Observer.O obs) /\
  dot (Observer.V obs) (Observer.V obs)
  = W0 * W0 * (v0 (Observer.O obs) * v0 (Observer.O obs)
               + v1 (Observer.O obs) * v1 (Observer.O obs)).
Proof.
  unfold obs, Observer.make, dot, cross. cbn [Observer.V Observer.O v0 v1 v2].
  repeat split; try ring.
  apply vec_eq; cbn [v0 v1 v2]; ring.
Qed.

Hypothesis RE_pos : 0 < RE.
Hypothesis FL_range : 0 <= FL < 1.

Lemma observer_D_sqr (LA : R) :
  sqrt (RE * RE * cos LA * cos LA
        + RE * (1 - FL) * (RE * (1 - FL)) * sin LA * sin LA)
  * sqrt (RE * RE * cos LA * cos LA
          + RE * (1 - FL) * (RE * (1 - FL)) * sin LA * sin LA)
  = RE * RE * cos LA * cos LA
    + RE * (1 - FL) * (RE * (1 - FL)) * sin LA * sin LA /\
  RE * (1 - FL)
  <= sqrt (RE * RE * cos LA * cos LA
           + RE * (1 - FL) * (RE * (1 - FL)) * sin LA * sin LA) /\
  0 < RE * (1 - FL).
Proof.
  set (RP := RE * (1 - FL)).
  pose proof (sin_cos_sqr LA) as Hsc.
  assert (HRP : 0 < RP) by (unfold RP; nra).
  assert (HRPRE : RP * RP <= RE * RE) by (unfold RP; nra).
  assert (Hge : RP * RP
                <= RE * RE * cos LA * cos LA + RP * RP * sin LA * sin LA).
  { pose proof (Rle_0_sqr (cos LA)) as Hc. unfold Rsqr in Hc.
    replace (RP * RP) with (RP * RP * (sin LA * sin LA + cos LA * cos LA))
      at 1 by (rewrite Hsc; ring).
    nra. }
  repeat split.
  - apply sqrt_sqrt. nra.
  - rewrite <- (sqrt_square RP) at 1 by lra.
    apply sqrt_le_1; nra.
  - exact HRP.
Qed.

(** The position of the observer: at height zero it is on the ellipsoid of
    radii [RE] and [RE * (1 - FL)], and a height in meters moves it by that
    height in kilometers along Up. *)
Theorem observer_on_ellipsoid :
  let RP := RE * (1 - FL) in
  (v0 (Observer.O obs0) * v0 (Observer.O obs0)
   + v1 (Observer.O obs0) * v1 (Observer.O obs0)) / (RE * RE)
  + v2 (Observer.O obs0) * v2 (Observer.O obs0) / (RP * RP) = 1 /\
  Observer.O obs
  = vadd (Observer.O obs0) (scale (hgt / 1000) (Observer.U obs)).
Proof.
  intros RP.
  destruct (observer_D_sqr (RADIANS lat)) as (HD & HRPD & HRP).
  unfold obs, obs0, Observer.make, vadd, scale.
  cbn [Observer.O Observer.U v0 v1 v2]. unfold RP.
  pose proof (sin_cos_sqr (RADIANS lng)) as Ho.
  set (LA := RADIANS lat) in *.
  set (D := sqrt (RE * RE * cos LA * cos LA
                  + RE * (1 - FL) * (RE * (1 - FL)) * sin LA * sin LA))
    in *.
  set (P := RE * (1 - FL)) in *.
  assert (HDpos : 0 < D) by lra.
  set (sa := sin LA) in *. set (ca := cos LA) in *.
  set (so := sin (RADIANS lng)) in *. set (co := cos (RADIANS lng)) in *.
  split.
  - replace (0 / 1000) with 0 by lra.
    transitivity ((RE * RE * ca * ca * (so * so + co * co)
                   + P * P * sa * sa) / (D * D)).
    + field. lra.
    + rewrite Ho, HD. field. nra.
  - apply vec_eq; cbn [v0 v1 v2]; field; lra.
Qed.


End ObserverFrame.

Lemma observer_on_ellipsoid_witness :
  let obs0 := Observer.make Sample.RE Sample.FL Sample.W0 "EQ" 40 (-3) 0 in
  let obs := Observer.make Sample.RE Sample.FL Sample.W0 "EQ" 40 (-3) 650 in
  let RP := Sample.RE * (1 - Sample.FL) in
  (v0 (Observer.O obs0) * v0 (Observer.O obs0)
   + v1 (Observer.O obs0) * v1 (Observer.O obs0)) / (Sample.RE * Sample.RE)
  + v2 (Observer.O obs0) * v2 (Observer.O obs0) / (RP * RP) = 1 /\
  Observer.O obs
  = vadd (Observer.O obs0) (scale (650 / 1000) (Observer.U obs)).
Proof.
  apply (observer_on_ellipsoid Sample.RE Sample.FL Sample.W0 "EQ" 40 (-3) 650);
    unfold Sample.RE, Sample.FL; lra.
Defined.

(** ** Altitude and azimuth *)

Lemma satellite_altaz_look (st : Satellite.state) (obs : Observer.t) :
  line_of_sight (Satellite.S st) obs <> zero_vec ->
  Satellite.altaz st obs = Some (look (line_of_sight (Satellite.S st) obs) obs).
Proof.
  intros Hnz. rewrite <- range_zero_iff in Hnz.
  unfold look. unfold norm, dot, line_of_sight in *. cbn [v0 v1 v2] in *.
  unfold Satellite.altaz.
  destruct (Req_dec_T _ 0) as [Hr | Hr]; [contradiction |].
  match goal with |- context [Rdiv _ ?x] => set (r := x) in * end.
  match goal with
  | |- Some (DEGREES (asin ?u1), (if Rlt_dec (DEGREES (atan2 ?e1 ?n1)) 0
                                  then _ else _))
       = Some (DEGREES (asin ?u2), (if Rlt_dec (DEGREES (atan2 ?e2 ?n2)) 0
                                    then _ else _)) =>
      replace u1 with u2 by (field; exact Hr);
      replace e1 with e2 by (field; exact Hr);
      replace n1 with n2 by (field; exact Hr)
  end.
  reflexivity.
Qed.










Lemma DEGREES_values :
  DEGREES 0 = 0 /\ DEGREES (PI / 2) = 90 /\ DEGREES PI = 180 /\
  DEGREES (- PI / 2) = -90.
Proof.
  pose proof PI_RGT_0 as Hpi. unfold DEGREES.
  repeat split; field; lra.
Qed.

Lemma atan2_axes :
  atan2 0 1 = 0 /\ atan2 1 0 = PI / 2 /\ atan2 0 (-1) = PI /\
  atan2 (-1) 0 = - PI / 2.
Proof.
  unfold atan2. repeat split.
  - destruct (Rlt_dec 0 1); [| lra].
    replace (0 / 1) with 0 by lra. apply atan_0.
  - destruct (Rlt_dec 0 0); [lra |]. destruct (Rlt_dec 0 1); [reflexivity | lra].
  - destruct (Rlt_dec 0 (-1)); [lra |]. destruct (Rlt_dec (-1) 0); [| lra].
    destruct (Rle_dec 0 0); [| lra].
    replace (0 / -1) with 0 by lra. rewrite atan_0. lra.
  - destruct (Rlt_dec 0 0); [lra |]. destruct (Rlt_dec 0 (-1)); [lra |].
    destruct (Rlt_dec (-1) 0); [reflexivity | lra].
Qed.

(** The angles of a line of sight of length [h] along a unit vector [D]. *)
Lemma look_scaled (h : R) (D : Vec3) (obs : Observer.t) :
  0 < h -> dot D D = 1 ->
  look (scale h D) obs
  = (DEGREES (asin (dot D (Observer.U obs))),
     let az := DEGREES (atan2 (dot D (Observer.E obs))
                          (dot D (Observer.N obs))) in
     if Rlt_dec az 0 then az + 360 else az).
Proof.
  intros Hh HD.
  assert (Hn : norm (scale h D) = h).
  { unfold norm.
    replace (dot (scale h D) (scale h D)) with (h * h * dot D D)
      by (unfold dot, scale; cbn [v0 v1 v2]; ring).
    rewrite HD, Rmult_1_r. apply sqrt_square. lra. }
  assert (Hd : forall X, dot (scale h D) X / h = dot D X).
  { intros X. unfold dot, scale. cbn [v0 v1 v2]. field. lra. }
  unfold look. rewrite Hn, !Hd. reflexivity.
Qed.

Lemma scaled_not_zero (h : R) (D : Vec3) :
  0 < h -> dot D D = 1 -> scale h D <> zero_vec.
Proof.
  intros Hh HD Hz.
  assert (Hdot : dot (scale h D) (scale h D) = 0).
  { rewrite Hz. unfold dot, zero_vec. cbn [v0 v1 v2]. ring. }
  replace (dot (scale h D) (scale h D)) with (h * h * dot D D) in Hdot
    by (unfold dot, scale; cbn [v0 v1 v2]; ring).
  rewrite HD in Hdot. nra.
Qed.

Lemma line_of_sight_offset (P L : Vec3) (obs : Observer.t) :
  P = vadd (Observer.O obs) L -> line_of_sight P obs = L.
Proof.
  intros ->. unfold line_of_sight, vadd. apply vec_eq; cbn [v0 v1 v2]; ring.
Qed.

Section Compass.

Variables RE FL W0 : R.
Variable nm : string.
Variables lat lng hgt : R.

Let obs := Observer.make RE FL W0 nm lat lng hgt.

Variable st : Satellite.state.
Variable h : R.
Hypothesis h_pos : 0 < h.

Lemma altaz_along (D : Vec3) :
  dot D D = 1 ->
  Satellite.S st = vadd (Observer.O obs) (scale h D) ->
  Satellite.altaz st obs
  = Some (DEGREES (asin (dot D (Observer.U obs))),
          let az := DEGREES (atan2 (dot D (Observer.E obs))
                               (dot D (Observer.N obs))) in
          if Rlt_dec az 0 then az + 360 else az).
Proof.
  intros HD HS. apply line_of_sight_offset in HS.
  rewrite satellite_altaz_look
    by (rewrite HS; now apply scaled_not_zero).
  rewrite HS, look_scaled by assumption. reflexivity.
Qed.

(** For an observer made by the constructor, a satellite at the distance
    [h > 0] along East, South or West is on the horizon, at the azimuth 90,
    180 or 270, in exact arithmetic.  (Along North the azimuth is next to
    the jump between 360 and 0, and along Up the arc sine is taken at the
    end of its domain: there rounding decides.) *)
Theorem altaz_compass_points :
  (Satellite.S st = vadd (Observer.O obs) (scale h (Observer.E obs)) ->
   Satellite.altaz st obs = Some (0, 90)) /\
  (Satellite.S st
   = vadd (Observer.O obs) (scale h (scale (-1) (Observer.N obs))) ->
   Satellite.altaz st obs = Some (0, 180)) /\
  (Satellite.S st
   = vadd (Observer.O obs) (scale h (scale (-1) (Observer.E obs))) ->
   Satellite.altaz st obs = Some (0, 270)).
Proof.
  destruct (observer_dots RE FL W0 nm lat lng hgt)
    as (HUE & HUN & HEN & HUU & HEE & HNN).
  fold obs in HUE, HUN, HEN, HUU, HEE, HNN.
  destruct atan2_axes as (A01 & A10 & A0m & Am0).
  destruct DEGREES_values as (D0 & D90 & D180 & Dm90).
  assert (Hsym : forall a b, dot a b = dot b a)
    by (intros; unfold dot; ring).
  assert (Hopp : forall a b, dot (scale (-1) a) b = - dot a b)
    by (intros; unfold dot, scale; cbn [v0 v1 v2]; ring).
  assert (Hopp2 : forall a, dot (scale (-1) a) (scale (-1) a) = dot a a)
    by (intros; unfold dot, scale; cbn [v0 v1 v2]; ring).
  repeat split; intros HS.
  - rewrite (altaz_along _ HEE HS).
    rewrite (Hsym (Observer.E obs) (Observer.U obs)), HUE, HEE, HEN.
    rewrite asin_0, D0, A10, D90.
    cbv zeta. destruct (Rlt_dec 90 0); [lra | reflexivity].
  - rewrite (altaz_along (scale (-1) (Observer.N obs)))
      by (rewrite ?Hopp2; assumption).
    rewrite !Hopp.
    rewrite (Hsym (Observer.N obs) (Observer.U obs)), HUN.
    rewrite (Hsym (Observer.N obs) (Observer.E obs)), HEN, HNN.
    replace (- 0) with 0 by lra.
    replace (- (1)) with (-1) by lra.
    rewrite asin_0, D0, A0m, D180.
    cbv zeta. destruct (Rlt_dec 180 0); [lra | reflexivity].
  - rewrite (altaz_along (scale (-1) (Observer.E obs)))
      by (rewrite ?Hopp2; assumption).
    rewrite !Hopp.
    rewrite (Hsym (Observer.E obs) (Observer.U obs)), HUE, HEE, HEN.
    replace (- 0) with 0 by lra.
    replace (- (1)) with (-1) by lra.
    rewrite asin_0, D0, Am0, Dm90.
    cbv zeta. destruct (Rlt_dec (-90) 0); [| lra].
    f_equal. f_equal. lra.
Qed.

End Compass.

Lemma altaz_compass_points_witness :
  let obs := Observer.make Sample.RE Sample.FL Sample.W0 "M" 40 (-3) 650 in
  Satellite.altaz (Scene.east_of obs 1000) obs = Some (0, 90).
Proof.
  intros obs.
  apply (proj1 (altaz_compass_points Sample.RE Sample.FL Sample.W0
                  "M" 40 (-3) 650 (Scene.east_of obs 1000) 1000
                  ltac:(lra))).
  reflexivity.
Defined.

(** ** The altitude of the Sun *)

Section SunAltitude.

Variables RE FL W0 : R.
Variable nm : string.
Variables lat lng hgt : R.
Variables YM YG G0 WE WW MAS0 MASD EQC1 EQC2 INS CNS SNS : R.
Variable dt : DateTime.t.

Hypothesis RE_pos : 0 < RE.
Hypothesis FL_range : 0 <= FL < 1.
Hypothesis above_one : 1 < RE * (1 - FL) + hgt / 1000.
Hypothesis CNS_cos : CNS = cos INS.
Hypothesis SNS_sin : SNS = sin INS.

Let obs := Observer.make RE FL W0 nm lat lng hgt.
Let sun := Sun.predict YM YG G0 WE WW MAS0 MASD EQC1 EQC2 CNS SNS dt.


End SunAltitude.


(** ** The element set read by [Satellite::tle] *)

Lemma digit_char (a : ascii) (d : Z) (s : string) :
  digit a = Some d ->
  isspace a = false /\ read_sign (String a s) = (false, String a s) /\
  (0 <= d <= 9)%Z.
Proof.
  destruct a as [[] [] [] [] [] [] [] []]; intros H;
    try (vm_compute in H; discriminate H);
    (vm_compute in H; injection H as <-;
     repeat split; try reflexivity; lia).
Qed.

Lemma atol_two_digits (a b : ascii) (da db : Z) :
  digit a = Some da -> digit b = Some db ->
  atol (String a (String b "")) = (10 * da + db)%Z /\
  (0 <= 10 * da + db <= 99)%Z.
Proof.
  intros Ha Hb.
  destruct (digit_char a da (String b "") Ha) as (Hsp & Hsg & Hda).
  destruct (digit_char b db "" Hb) as (_ & _ & Hdb).
  split; [| lia].
  unfold atol. cbn [skip_space]. rewrite Hsp, Hsg.
  cbn [read_digits]. rewrite Ha. cbn [read_digits]. rewrite Hb.
  cbn [read_digits]. lia.
Qed.

Lemma read_digits_all (s : string) :
  all_digits s = true ->
  forall acc n : Z, (0 <= acc)%Z ->
  exists v : Z,
    read_digits acc n s = (v, (n + Z.of_nat (String.length s))%Z, ""%string) /\
    (acc * 10 ^ Z.of_nat (String.length s) <= v
     < (acc + 1) * 10 ^ Z.of_nat (String.length s))%Z.
Proof.
  induction s as [| c s IH]; intros Hall acc n Hacc.
  - exists acc. cbn. split; [f_equal; f_equal; lia | lia].
  - cbn [all_digits] in Hall. cbn [read_digits].
    destruct (digit c) as [d |] eqn:Hd; [| discriminate].
    destruct (digit_char c d "" Hd) as (_ & _ & Hd9).
    destruct (IH Hall (10 * acc + d)%Z (n + 1)%Z ltac:(lia))
      as (v & Hv & Hb).
    exists v. split.
    + rewrite Hv. cbn [String.length]. f_equal. f_equal. lia.
    + cbn [String.length]. rewrite Nat2Z.inj_succ, Z.pow_succ_r by lia.
      assert (0 < 10 ^ Z.of_nat (String.length s))%Z
        by (apply Z.pow_pos_nonneg; lia).
      nia.
Qed.

(** On a text made of digits only, [strtod] reads the integer they spell. *)
Lemma strtod_all_digits (s : string) :
  all_digits s = true -> s <> ""%string ->
  exists v : Z,
    strtod s = IZR v /\ (0 <= v < 10 ^ Z.of_nat (String.length s))%Z.
Proof.
  intros Hall Hne.
  destruct (read_digits_all s Hall 0 0 ltac:(lia)) as (v & Hv & Hb).
  exists v. split; [| lia].
  destruct s as [| c s]; [now elim Hne |].
  pose proof Hall as Hc. cbn [all_digits] in Hc.
  destruct (digit c) as [d |] eqn:Hd; [| discriminate].
  destruct (digit_char c d s Hd) as (Hsp & Hsg & _).
  unfold strtod. cbn [skip_space]. rewrite Hsp, Hsg, Hv.
  cbn [read_exponent].
  destruct (0 + Z.of_nat (String.length (String c s)) + 0 =? 0)%Z eqn:Hz.
  - apply Z.eqb_eq in Hz. cbn [String.length] in Hz. lia.
  - replace (0 - 0)%Z with 0%Z by lia. cbn [powerRZ]. ring.
Qed.

Lemma cube_root_cubed (x : R) :
  0 < x -> Rpower x (1 / 3) * Rpower x (1 / 3) * Rpower x (1 / 3) = x.
Proof.
  intros Hx. rewrite <- !Rpower_plus.
  replace (1 / 3 + 1 / 3 + 1 / 3) with 1 by lra.
  now apply Rpower_1.
Qed.

Section ElementSet.

Variables GM RE J2 YM : R.
Variables nm l1 l2 : string.

Let sat := Satellite.tle GM RE J2 YM nm l1 l2.

(** The semi-major axis that [tle] derives obeys Kepler's third law with the
    mean motion in radians per second, [A_0 ^ 3 * N0 ^ 2 = GM], when [GM]
    is positive and the mean motion is not zero; and for an eccentricity
    below one the semi-minor axis is positive, at most the semi-major axis,
    and [B_0 ^ 2 = A_0 ^ 2 * (1 - EC ^ 2)]. *)
Theorem tle_axes :
  0 < GM -> Satellite.MM sat <> 0 ->
  Satellite.N0 sat = Satellite.MM sat / 86400 /\
  0 < Satellite.A_0 sat /\
  Satellite.A_0 sat * Satellite.A_0 sat * Satellite.A_0 sat
  * (Satellite.N0 sat * Satellite.N0 sat) = GM /\
  (-1 < Satellite.EC sat < 1 ->
   0 < Satellite.B_0 sat <= Satellite.A_0 sat /\
   Satellite.B_0 sat * Satellite.B_0 sat
   = Satellite.A_0 sat * Satellite.A_0 sat
     * (1 - Satellite.EC sat * Satellite.EC sat)).
Proof.
  intros HGM HMM.
  assert (HN0 : Satellite.N0 sat = Satellite.MM sat / 86400) by reflexivity.
  assert (HA : Satellite.A_0 sat
               = Rpower (GM / (Satellite.N0 sat * Satellite.N0 sat)) (1 / 3))
    by reflexivity.
  assert (HB : Satellite.B_0 sat
               = Satellite.A_0 sat
                 * sqrt (1 - Satellite.EC sat * Satellite.EC sat))
    by reflexivity.
  assert (HN0nz : Satellite.N0 sat <> 0) by (rewrite HN0; lra).
  assert (Hsq : 0 < Satellite.N0 sat * Satellite.N0 sat) by nra.
  assert (Hx : 0 < GM / (Satellite.N0 sat * Satellite.N0 sat)).
  { apply Rmult_lt_0_compat; [exact HGM |]. now apply Rinv_0_lt_compat. }
  assert (HApos : 0 < Satellite.A_0 sat)
    by (rewrite HA; unfold Rpower; apply exp_pos).
  split; [exact HN0 |]. split; [exact HApos |]. split.
  - rewrite HA, cube_root_cubed by exact Hx. field. nra.
  - intros HEC.
    assert (Hrad : 0 < 1 - Satellite.EC sat * Satellite.EC sat <= 1) by nra.
    pose proof (sqrt_lt_R0 _ (proj1 Hrad)) as Hs0.
    pose proof (sqrt_sqrt (1 - Satellite.EC sat * Satellite.EC sat)
                  ltac:(lra)) as Hss.
    set (r := sqrt (1 - Satellite.EC sat * Satellite.EC sat)) in *.
    assert (Hs1 : r <= 1) by nra.
    rewrite HB. repeat split; nra.
Qed.

(** [tle] splits the epoch day of the year between the day number and the
    fraction without moving the instant, and for a day of the year that is
    not negative the fraction is in [[0, 1)]. *)
Theorem tle_epoch_split :
  IZR (Satellite.DE sat) + Satellite.TE sat
  = IZR (DateTime.fnday YM (Satellite.YE sat) 1 0) + getdouble l1 20 32 /\
  (0 <= getdouble l1 20 32 -> 0 <= Satellite.TE sat < 1).
Proof.
  assert (HDE : Satellite.DE sat
                = (DateTime.fnday YM (Satellite.YE sat) 1 0
                   + to_long (getdouble l1 20 32))%Z) by reflexivity.
  assert (HTE : Satellite.TE sat
                = getdouble l1 20 32 - IZR (to_long (getdouble l1 20 32)))
    by reflexivity.
  rewrite HDE, HTE, plus_IZR. split; [ring |].
  intros Hpos. pose proof (to_long_bound_nonneg _ Hpos). lra.
Qed.

(** The two digits of the epoch year are read as a year of 1958 to 2057:
    below 58 they count from 2000, from 58 on they count from 1900. *)
Theorem tle_epoch_year_window (a b : ascii) (da db : Z) :
  Fields.text Fields.fYE l1 l2 = String a (String b "") ->
  digit a = Some da -> digit b = Some db ->
  Satellite.YE sat
  = (if (10 * da + db <? 58)%Z then 2000 + (10 * da + db)
     else 1900 + (10 * da + db))%Z /\
  (1958 <= Satellite.YE sat <= 2057)%Z.
Proof.
  intros Htext Ha Hb.
  destruct (atol_two_digits a b da db Ha Hb) as [Hatol Hrange].
  assert (HYE : Satellite.YE sat
                = (if (getlong l1 18 20 <? 58)%Z then getlong l1 18 20 + 2000
                   else getlong l1 18 20 + 1900)%Z) by reflexivity.
  assert (Hg : getlong l1 18 20 = (10 * da + db)%Z).
  { unfold getlong. cbn [Fields.text] in Htext. rewrite Htext. exact Hatol. }
  rewrite HYE, Hg.
  destruct (10 * da + db <? 58)%Z eqn:Hlt.
  - apply Z.ltb_lt in Hlt. lia.
  - apply Z.ltb_ge in Hlt. lia.
Qed.

(** A field of seven digits gives an eccentricity in [[0, 1)]. *)
Theorem tle_eccentricity_range :
  all_digits (Fields.text Fields.fEC l1 l2) = true ->
  String.length (Fields.text Fields.fEC l1 l2) = 7%nat ->
  0 <= Satellite.EC sat < 1.
Proof.
  intros Hall Hlen.
  assert (Hne : Fields.text Fields.fEC l1 l2 <> ""%string).
  { intros Hz. rewrite Hz in Hlen. discriminate. }
  destruct (strtod_all_digits _ Hall Hne) as (v & Hv & Hb).
  rewrite Hlen in Hb.
  assert (HEC : Satellite.EC sat = getdouble l2 26 33 / 1e7) by reflexivity.
  assert (Hg : getdouble l2 26 33 = IZR v).
  { unfold getdouble. cbn [Fields.text] in Hv. exact Hv. }
  rewrite HEC, Hg.
  assert (H0 : 0 <= IZR v) by (apply IZR_le; lia).
  assert (H1 : IZR v < IZR (10 ^ Z.of_nat 7)) by (apply IZR_lt; lia).
  change (10 ^ Z.of_nat 7)%Z with 10000000%Z in H1.
  lra.
Qed.

End ElementSet.

Lemma tle_axes_witness :
  let sat := Satellite.tle Sample.GM Sample.RE Sample.J2 Sample.YM "ISS"
               Scene.iss_line1 Scene.iss_line2 in
  Satellite.N0 sat = Satellite.MM sat / 86400 /\
  0 < Satellite.A_0 sat /\
  Satellite.A_0 sat * Satellite.A_0 sat * Satellite.A_0 sat
  * (Satellite.N0 sat * Satellite.N0 sat) = Sample.GM /\
  (-1 < Satellite.EC sat < 1 ->
   0 < Satellite.B_0 sat <= Satellite.A_0 sat /\
   Satellite.B_0 sat * Satellite.B_0 sat
   = Satellite.A_0 sat * Satellite.A_0 sat
     * (1 - Satellite.EC sat * Satellite.EC sat)).
Proof.
  apply (tle_axes Sample.GM Sample.RE Sample.J2 Sample.YM "ISS"
           Scene.iss_line1 Scene.iss_line2).
  - unfold Sample.GM. lra.
  - assert (HMM : Satellite.MM
                    (Satellite.tle Sample.GM Sample.RE Sample.J2 Sample.YM
                       "ISS" Scene.iss_line1 Scene.iss_line2)
                  = 2 * PI * getdouble Scene.iss_line2 52 63)
      by reflexivity.
    rewrite HMM.
    change (getdouble Scene.iss_line2 52 63)
      with (getdouble Sample.line2 52 63).
    rewrite sample_mean_motion. pose proof PI_RGT_0. lra.
Defined.

Example iss_epoch_day : getdouble Scene.iss_line1 20 32 = 45.18587073.
Proof. unfold getdouble, strtod. cbn -[IZR powerRZ]. simpl. lra. Qed.

Lemma tle_epoch_split_witness :
  0 <= Satellite.TE
         (Satellite.tle Sample.GM Sample.RE Sample.J2 Sample.YM "ISS"
            Scene.iss_line1 Scene.iss_line2) < 1.
Proof.
  apply (proj2 (tle_epoch_split Sample.GM Sample.RE Sample.J2 Sample.YM
                  "ISS" Scene.iss_line1 Scene.iss_line2)).
  rewrite iss_epoch_day. lra.
Defined.

Lemma tle_epoch_year_window_witness :
  let sat := Satellite.tle Sample.GM Sample.RE Sample.J2 Sample.YM "ISS"
               Scene.iss_line1 Scene.iss_line2 in
  Satellite.YE sat
  = (if (10 * 2 + 0 <? 58)%Z then 2000 + (10 * 2 + 0)
     else 1900 + (10 * 2 + 0))%Z /\
  (1958 <= Satellite.YE sat <= 2057)%Z.
Proof.
  apply (tle_epoch_year_window Sample.GM Sample.RE Sample.J2 Sample.YM "ISS"
           Scene.iss_line1 Scene.iss_line2 "2" "0" 2 0);
    reflexivity.
Defined.

Lemma tle_eccentricity_range_witness :
  0 <= Satellite.EC
         (Satellite.tle Sample.GM Sample.RE Sample.J2 Sample.YM "ISS"
            Scene.iss_line1 Scene.iss_line2) < 1.
Proof.
  apply (tle_eccentricity_range Sample.GM Sample.RE Sample.J2 Sample.YM "ISS"
           Scene.iss_line1 Scene.iss_line2);
    reflexivity.
Defined.

(** ** The state written by [Satellite::predict] *)

(** Removing whole revolutions leaves the mean anomaly less a whole number
    of turns, with the same sine and cosine. *)
Theorem wrap_keeps_sine_cosine (M : R) :
  M = IZR (fst (Satellite.wrap M)) * (2 * PI) + snd (Satellite.wrap M) /\
  sin (snd (Satellite.wrap M)) = sin M /\
  cos (snd (Satellite.wrap M)) = cos M.
Proof.
  unfold Satellite.wrap. cbn [fst snd].
  set (DR := to_long (M / (2 * PI))).
  destruct (sin_cos_whole_turns (- DR) M) as [Hs Hc].
  replace (M - IZR DR * 2 * PI) with (M + IZR (- DR) * (2 * PI))
    by (rewrite opp_IZR; ring).
  repeat split; [rewrite opp_IZR; ring | exact Hs | exact Hc].
Qed.

Section Prediction.

Variables YM YG G0 WE WW MAS0 MASD : R.
Variable sat : Satellite.t.

(** [predict] reads only the instant [DN + TN]: two [DateTime] of the same
    instant give the same state, also when one of them has a fraction
    outside [[0, 1)]. *)
Theorem predict_depends_on_instant (fuel : nat) (dt1 dt2 : DateTime.t) :
  instant dt1 = instant dt2 ->
  Satellite.predict YM YG G0 WE WW MAS0 MASD fuel sat dt1
  = Satellite.predict YM YG G0 WE WW MAS0 MASD fuel sat dt2.
Proof.
  unfold instant. intros Hi.
  assert (HT : IZR (DateTime.DN dt1 - Satellite.DE sat)
               + (DateTime.TN dt1 - Satellite.TE sat)
               = IZR (DateTime.DN dt2 - Satellite.DE sat)
                 + (DateTime.TN dt2 - Satellite.TE sat))
    by (rewrite !minus_IZR; lra).
  unfold Satellite.predict, Satellite.mean_anomaly. cbv zeta.
  rewrite HT. reflexivity.
Qed.

Lemma predict_circular_state (n : nat) (dt : DateTime.t) :
  Satellite.EC sat = 0 ->
  exists st : Satellite.state,
    Satellite.predict YM YG G0 WE WW MAS0 MASD (S n) sat dt = Some st /\
    Satellite.RS st
    = Satellite.A_0 sat
      * (1 + 4 * (Satellite.DC sat
                  * (instant dt
                     - (IZR (Satellite.DE sat) + Satellite.TE sat)) / 2)).
Proof.
  intros He.
  set (M := snd (Satellite.wrap (Satellite.mean_anomaly sat dt))).
  assert (HD : Satellite.correction 0 M M = 0)
    by (unfold Satellite.correction; field; lra).
  assert (Hk : Satellite.kepler (S n) 0 M M
               = Some (Satellite.mk_kepler (M - Satellite.correction 0 M M)
                         (1 - 0 * cos M) (cos M) (sin M))).
  { rewrite kepler_step, HD, Rabs_R0.
    destruct (Rlt_dec 0 1e-5); [reflexivity | lra]. }
  unfold Satellite.predict. unfold M, Satellite.wrap in Hk. cbn [snd] in Hk.
  unfold Satellite.wrap. rewrite He, Hk.
  eexists. split; [reflexivity |].
  cbv zeta. cbn [Satellite.RS Satellite.k_DNOM]. unfold instant.
  rewrite minus_IZR. field.
Qed.


Lemma kepler_shape (n : nat) (e M E : R) (k : Satellite.kepler_t) :
  Satellite.kepler n e M E = Some k ->
  exists X : R,
    Satellite.k_C_EA k = cos X /\ Satellite.k_S_EA k = sin X /\
    Satellite.k_DNOM k = 1 - e * cos X.
Proof.
  revert E. induction n as [| n IH]; intros E Hk; [discriminate |].
  rewrite kepler_step in Hk.
  destruct (Rlt_dec _ 1e-5).
  - injection Hk as <-. exists E. repeat split.
  - now apply IH with (E := E - Satellite.correction e M E).
Qed.

Lemma rotation_norms (Sx Sy CW SW CQ SQ CI SI CG SG : R) :
  SW * SW + CW * CW = 1 -> SQ * SQ + CQ * CQ = 1 ->
  SI * SI + CI * CI = 1 -> SG * SG + CG * CG = 1 ->
  let CX := vec (CW * CQ - SW * CI * SQ) (- SW * CQ - CW * CI * SQ)
                (SI * SQ) in
  let CY := vec (CW * SQ + SW * CI * CQ) (- SW * SQ + CW * CI * CQ)
                (- SI * CQ) in
  let CZ := vec (SW * SI) (CW * SI) CI in
  let SAT := vec (Sx * v0 CX + Sy * v1 CX) (Sx * v0 CY + Sy * v1 CY)
                 (Sx * v0 CZ + Sy * v1 CZ) in
  let S := vec (v0 SAT * CG - v1 SAT * SG) (v0 SAT * SG + v1 SAT * CG)
               (v2 SAT) in
  dot SAT SAT = Sx * Sx + Sy * Sy /\ dot S S = dot SAT SAT.
Proof.
  intros HW HQ HI HG CX CY CZ SAT S0.
  unfold dot, S0, SAT, CZ, CY, CX. cbn [v0 v1 v2].
  split; nsatz.
Qed.

Lemma predict_state_norms
    (fuel : nat) (dt : DateTime.t) (st : Satellite.state) :
  Satellite.B_0 sat * Satellite.B_0 sat
  = Satellite.A_0 sat * Satellite.A_0 sat
    * (1 - Satellite.EC sat * Satellite.EC sat) ->
  Satellite.predict YM YG G0 WE WW MAS0 MASD fuel sat dt = Some st ->
  dot (Satellite.SAT st) (Satellite.SAT st)
  = Satellite.RS st * Satellite.RS st /\
  dot (Satellite.S st) (Satellite.S st)
  = Satellite.RS st * Satellite.RS st /\
  norm (Satellite.S st) = Rabs (Satellite.RS st) /\
  v2 (Satellite.S st) = v2 (Satellite.SAT st) /\
  dot (Satellite.V st) (Satellite.V st)
  = dot (Satellite.VEL st) (Satellite.VEL st).
Proof.
  intros HB Hp. unfold Satellite.predict, Satellite.wrap in Hp.
  destruct (Satellite.kepler fuel _ _ _) as [k |] eqn:Hk; [| discriminate].
  destruct (kepler_shape _ _ _ _ _ Hk) as (X & HC & HS & HDN).
  injection Hp as <-.
  cbn [Satellite.SAT Satellite.S Satellite.V Satellite.VEL Satellite.RS].
  rewrite HC, HS, HDN.
  match goal with
  | |- context [cos (- ?g)] => set (G := - g)
  end.
  match goal with
  | |- context [Satellite.WP sat + ?w] => set (AP := Satellite.WP sat + w)
  end.
  match goal with
  | |- context [Satellite.RA sat + ?w] => set (RAAN := Satellite.RA sat + w)
  end.
  match goal with
  | |- context [Satellite.A_0 sat * ?kd] => set (KD := kd)
  end.
  pose proof (sin_cos_sqr AP) as HW. pose proof (sin_cos_sqr RAAN) as HQ.
  pose proof (sin_cos_sqr (Satellite.IN sat)) as HI.
  pose proof (sin_cos_sqr G) as HG. pose proof (sin_cos_sqr X) as HX.
  set (A := Satellite.A_0 sat * KD). set (B := Satellite.B_0 sat * KD).
  assert (HBA : B * B = A * A * (1 - Satellite.EC sat * Satellite.EC sat)).
  { unfold A, B.
    replace (Satellite.B_0 sat * KD * (Satellite.B_0 sat * KD))
      with (Satellite.B_0 sat * Satellite.B_0 sat * (KD * KD)) by ring.
    rewrite HB. ring. }
  destruct (rotation_norms (A * (cos X - Satellite.EC sat)) (B * sin X)
              (cos AP) (sin AP) (cos RAAN) (sin RAAN)
              (cos (Satellite.IN sat)) (sin (Satellite.IN sat))
              (cos G) (sin G) HW HQ HI HG) as [Hsat Hs].
  destruct (rotation_norms
              (- A * sin X / (1 - Satellite.EC sat * cos X)
               * Satellite.N0 sat)
              (B * cos X / (1 - Satellite.EC sat * cos X)
               * Satellite.N0 sat)
              (cos AP) (sin AP) (cos RAAN) (sin RAAN)
              (cos (Satellite.IN sat)) (sin (Satellite.IN sat))
              (cos G) (sin G) HW HQ HI HG) as [_ Hv].
  cbv zeta in Hsat, Hs, Hv.
  assert (Hrange : A * (cos X - Satellite.EC sat)
                   * (A * (cos X - Satellite.EC sat))
                   + B * sin X * (B * sin X)
                   = A * (1 - Satellite.EC sat * cos X)
                     * (A * (1 - Satellite.EC sat * cos X))).
  { replace (B * sin X * (B * sin X)) with (B * B * (sin X * sin X)) by ring.
    rewrite HBA.
    replace (sin X * sin X) with (1 - cos X * cos X) by lra. ring. }
  pose proof (eq_trans Hsat Hrange) as Hsat'.
  pose proof (eq_trans Hs Hsat') as Hs'.
  split; [exact Hsat' |]. split; [exact Hs' |].
  split; [| split; [reflexivity | exact Hv]].
  unfold norm.
  etransitivity; [apply f_equal; exact Hs' |].
  exact (sqrt_Rsqr_abs (A * (1 - Satellite.EC sat * cos X))).
Qed.

(** The range [RS] that [predict] stores is the length of the position it
    stores, in the celestial and in the Earth-fixed frame alike, when the
    axes of the element set satisfy [B_0 ^ 2 = A_0 ^ 2 * (1 - EC ^ 2)] as
    those derived by [tle] do; the turn to the Earth-fixed frame keeps the
    third coordinate and the length of the velocity. *)
Theorem predict_range_is_distance
    (fuel : nat) (dt : DateTime.t) (st : Satellite.state) :
  Satellite.B_0 sat * Satellite.B_0 sat
  = Satellite.A_0 sat * Satellite.A_0 sat
    * (1 - Satellite.EC sat * Satellite.EC sat) ->
  Satellite.predict YM YG G0 WE WW MAS0 MASD fuel sat dt = Some st ->
  dot (Satellite.SAT st) (Satellite.SAT st)
  = Satellite.RS st * Satellite.RS st /\
  dot (Satellite.S st) (Satellite.S st)
  = Satellite.RS st * Satellite.RS st /\
  norm (Satellite.S st) = Rabs (Satellite.RS st) /\
  v2 (Satellite.S st) = v2 (Satellite.SAT st) /\
  dot (Satellite.V st) (Satellite.V st)
  = dot (Satellite.VEL st) (Satellite.VEL st).
Proof. apply predict_state_norms. Qed.

End Prediction.

Lemma predict_depends_on_instant_witness :
  Satellite.predict Sample.YM Sample.YG Sample.G0 Sample.WE Sample.WW
    Sample.MAS0 Sample.MASD 5 Sample.slow_sat Scene.day_100_minus_6h
  = Satellite.predict Sample.YM Sample.YG Sample.G0 Sample.WE Sample.WW
      Sample.MAS0 Sample.MASD 5 Sample.slow_sat Scene.day_99_18h.
Proof.
  apply (predict_depends_on_instant Sample.YM Sample.YG Sample.G0 Sample.WE
           Sample.WW Sample.MAS0 Sample.MASD Sample.slow_sat 5
           Scene.day_100_minus_6h Scene.day_99_18h).
  unfold instant, Scene.day_100_minus_6h, Scene.day_99_18h.
  cbn [DateTime.DN DateTime.TN]. lra.
Defined.


Lemma slow_sat_axes :
  Satellite.B_0 Sample.slow_sat * Satellite.B_0 Sample.slow_sat
  = Satellite.A_0 Sample.slow_sat * Satellite.A_0 Sample.slow_sat
    * (1 - Satellite.EC Sample.slow_sat * Satellite.EC Sample.slow_sat).
Proof. unfold Sample.slow_sat. cbn. lra. Qed.

Lemma predict_range_is_distance_witness :
  exists st : Satellite.state,
    Satellite.predict Sample.YM Sample.YG Sample.G0 Sample.WE Sample.WW
      Sample.MAS0 Sample.MASD 1 Sample.slow_sat Sample.half_day_before
    = Some st /\
    norm (Satellite.S st) = Rabs (Satellite.RS st).
Proof.
  destruct (predict_circular_state Sample.YM Sample.YG Sample.G0 Sample.WE
              Sample.WW Sample.MAS0 Sample.MASD Sample.slow_sat 0
              Sample.half_day_before eq_refl) as (st & Hst & _).
  exists st. split; [exact Hst |].
  apply (predict_range_is_distance Sample.YM Sample.YG Sample.G0 Sample.WE
           Sample.WW Sample.MAS0 Sample.MASD Sample.slow_sat 1
           Sample.half_day_before st slow_sat_axes Hst).
Defined.

(** ** The sub-solar point *)


Section SunDeclination.

Variables YM YG G0 WE WW MAS0 MASD EQC1 EQC2 INS CNS SNS : R.
Hypothesis INS_range : 0 <= INS <= PI / 2.
Hypothesis SNS_sin : SNS = sin INS.

Variable dt : DateTime.t.

Let sun := Sun.predict YM YG G0 WE WW MAS0 MASD EQC1 EQC2 CNS SNS dt.


End SunDeclination.



(** ** The text of a [DateTime] *)

Lemma four_ok_true :
  forallb Text.four_ok (Calendar.range 1900 201) = true.
Proof. vm_compute. reflexivity. Qed.

Lemma two_ok_true : forallb Text.two_ok (Calendar.range 0 60) = true.
Proof. vm_compute. reflexivity. Qed.

Lemma fmt_four (n : Z) :
  (1900 <= n <= 2100)%Z ->
  exists a b c d : ascii,
    Text.fmt_d false 4 n = String a (String b (String c (String d ""))) /\
    atol (String a (String b (String c (String d "")))) = n.
Proof.
  intros Hn. pose proof four_ok_true as Hall.
  apply forallb_range with (x := n) in Hall; [| lia].
  unfold Text.four_ok in Hall.
  destruct (Text.fmt_d false 4 n) as [| a [| b [| c [| d [| ? ?]]]]];
    try discriminate.
  exists a, b, c, d. split; [reflexivity | now apply Z.eqb_eq].
Qed.

Lemma fmt_two (n : Z) :
  (0 <= n <= 59)%Z ->
  exists a b : ascii,
    Text.fmt_d true 2 n = String a (String b "") /\
    atol (String a (String b "")) = n.
Proof.
  intros Hn. pose proof two_ok_true as Hall.
  apply forallb_range with (x := n) in Hall; [| lia].
  unfold Text.two_ok in Hall.
  destruct (Text.fmt_d true 2 n) as [| a [| b [| ? ?]]]; try discriminate.
  exists a, b. split; [reflexivity | now apply Z.eqb_eq].
Qed.

Section AsciiLayout.

Variable dt : DateTime.t.

(** For a day number of 1900 Mar 01 to 2100 Feb 28 and a fraction of day in
    [[0, 1)], [ascii] writes 19 characters, [YYYY/MM/DD HH:MM:SS]: the
    separators stand at the places 4, 7, 10, 13 and 16, and the six fields
    between them read back, with [getlong], as the year, month, day, hour,
    minute and second that [gettime] returns. *)
Theorem ascii_layout :
  (Julian.first_day <= DateTime.DN dt <= Julian.last_day)%Z ->
  0 <= DateTime.TN dt < 1 ->
  exists y mo d h mi s : Z,
    DateTime.gettime dt = (y, mo, d, h, mi, s) /\
    let str := DateTime_ascii dt in
    String.length str = 19%nat /\
    (String.get 4 str = Some "/"%char /\ String.get 7 str = Some "/"%char /\
     String.get 10 str = Some " "%char /\
     String.get 13 str = Some ":"%char /\
     String.get 16 str = Some ":"%char) /\
    getlong str 0 4 = y /\ getlong str 5 7 = mo /\ getlong str 8 10 = d /\
    getlong str 11 13 = h /\ getlong str 14 16 = mi /\
    getlong str 17 19 = s.
Proof.
  intros Hdn HTN.
  apply back_ok_in_range in Hdn. unfold Julian.back_ok in Hdn.
  destruct (gettime_hms_fields _ HTN) as (h & mi & s & Hhms & Hr & _).
  unfold DateTime_ascii, DateTime.gettime.
  rewrite fndate_fndate_quot, Hhms.
  destruct (Calendar.fndate_quot (DateTime.DN dt)) as [[y mo] d].
  apply andb_prop in Hdn. destruct Hdn as [Hin _].
  unfold Julian.in_fndate_range in Hin.
  apply andb_prop in Hin. destruct Hin as [Hin _].
  apply andb_prop in Hin. destruct Hin as [Hv _].
  destruct (valid_date_bounds y mo d Hv) as (Hy & Hmo & Hdd).
  exists y, mo, d, h, mi, s. split; [reflexivity |].
  destruct (fmt_four y Hy) as (y1 & y2 & y3 & y4 & -> & Hya).
  destruct (fmt_two mo ltac:(lia)) as (m1 & m2 & -> & Hma).
  destruct (fmt_two d ltac:(lia)) as (d1 & d2 & -> & Hda).
  destruct (fmt_two h ltac:(lia)) as (h1 & h2 & -> & Hha).
  destruct (fmt_two mi ltac:(lia)) as (i1 & i2 & -> & Hia).
  destruct (fmt_two s ltac:(lia)) as (s1 & s2 & -> & Hsa).
  unfold getlong. cbn [append String.length String.get substring Nat.sub].
  repeat split; assumption || reflexivity.
Qed.

End AsciiLayout.

Lemma ascii_layout_witness :
  exists y mo d h mi s : Z,
    DateTime.gettime (DateTime.mk 737499 0.75) = (y, mo, d, h, mi, s) /\
    let str := DateTime_ascii (DateTime.mk 737499 0.75) in
    String.length str = 19%nat /\
    (String.get 4 str = Some "/"%char /\ String.get 7 str = Some "/"%char /\
     String.get 10 str = Some " "%char /\
     String.get 13 str = Some ":"%char /\
     String.get 16 str = Some ":"%char) /\
    getlong str 0 4 = y /\ getlong str 5 7 = mo /\ getlong str 8 10 = d /\
    getlong str 11 13 = h /\ getlong str 14 16 = mi /\
    getlong str 17 19 = s.
Proof.
  apply (ascii_layout (DateTime.mk 737499 0.75)).
  - unfold Julian.first_day, Julian.last_day. cbn [DateTime.DN]. lia.
  - cbn [DateTime.TN]. lra.
Defined.

(** ** What rounding changes *)

Section Doubles.

Import PrimFloat FloatOps SpecFloat FloatAxioms.
Local Open Scope float_scope.

Lemma sub_nan (x : float) : x - nan = nan.
Proof.
  apply Prim2SF_inj. rewrite sub_spec.
  change (Prim2SF nan) with S754_nan.
  destruct (Prim2SF x); reflexivity.
Qed.

Lemma nan_div (x : float) : nan / x = nan.
Proof.
  apply Prim2SF_inj. rewrite div_spec.
  change (Prim2SF nan) with S754_nan.
  destruct (Prim2SF x); reflexivity.
Qed.

Lemma kepler_nan (sin cos : float -> float) (fuel : nat) (EC EA : float) :
  Binary64.kepler sin cos fuel EC nan EA = None.
Proof.
  revert EA. induction fuel as [| fuel IH]; intros EA; [reflexivity |].
  cbn [Binary64.kepler]. rewrite sub_nan, nan_div.
  change (abs nan <? 1e-5) with false. cbv iota. apply IH.
Qed.

(** C4.  The mean anomaly that [Satellite::predict] keeps after whole
    revolutions are removed is negative, and so outside [[0, 2 pi)], in two
    ways.  A day and a fraction before the epoch of the space station's
    element set the mean anomaly is negative, the cast rounds the quotient
    toward zero, to -17, and what is left is negative.  Two days after the
    epoch the mean anomaly is positive, the quotient rounds up to 33 whole
    revolutions, and what is left is [- 2 ^ -45].  The first way is not an
    effect of rounding: in exact arithmetic a satellite of one revolution a
    day is left, half a day before its epoch, with [- PI]. *)
Theorem wrap_leaves_negative_anomaly :
  let M1 := Binary64.mean_anomaly Binary64.iss Binary64.before_epoch in
  let M2 := Binary64.mean_anomaly Binary64.iss Binary64.after_epoch in
  ((M1 <? 0) = true /\
   fst (Binary64.wrap M1) = (-17)%Z /\
   (snd (Binary64.wrap M1) <? 0) = true) /\
  ((0 <? M2) = true /\
   Binary64.wrap M2 = (33%Z, -0x1p-45) /\
   (snd (Binary64.wrap M2) <? 0) = true) /\
  ~ (0 <= snd (Satellite.wrap
                 (Satellite.mean_anomaly Sample.slow_sat
                    Sample.half_day_before)) < 2 * PI)%R.
Proof.
  split; [vm_compute; repeat split |].
  split; [vm_compute; repeat split |].
  exact wrap_before_epoch_negative.
Qed.

(** C7.  The azimuth that [Satellite::altaz] returns can be 360, outside
    [[0, 360)]: for the observer at latitude 0, longitude 0 and height 0
    and a satellite 1000 km to its north and [1e-20] km to its west, the
    arc tangent is taken of [hair_west], about [-1e-23], and 1; its value
    there is [hair_west] itself, to the last place; the azimuth before the
    test is a negative number of the order of [1e-21], and [az += 360.]
    rounds to 360.  [Sun::altaz] has the same statements. *)
Theorem altaz_azimuth_reaches_360 :
  (forall (atan2 : float -> float -> float) (asin : float -> float),
      snd (Binary64.altaz atan2 asin Binary64.near_north Binary64.equator)
      = Binary64.azimuth (atan2 Binary64.hair_west 1)) /\
  (Binary64.DEGREES Binary64.hair_west <? 0) = true /\
  Binary64.azimuth Binary64.hair_west = 360 /\
  (Binary64.azimuth Binary64.hair_west <? 360) = false.
Proof.
  split; [intros atan2 asin; vm_compute; reflexivity |].
  vm_compute. repeat split.
Qed.

Lemma reads_back_all :
  forallb
    (fun h =>
       forallb
         (fun m =>
            forallb (fun s => Binary64.reads_back h m s)
              (Calendar.range 0 60))
         (Calendar.range 0 60))
    (Calendar.range 0 24) = true.
Proof. vm_compute. reflexivity. Qed.

(** On doubles, [gettime] after [settime] returns a valid time of day that
    is the one set or the second before it, for each of the 86400 times of
    a day. *)
Theorem settime_gettime_on_doubles (h m s : Z) :
  Calendar.valid_time h m s = true ->
  exists h' m' s' : Z,
    Binary64.gettime_hms (Binary64.settime_TN h m s) = (h', m', s') /\
    Calendar.valid_time h' m' s' = true /\
    (Calendar.second_of_day h' m' s' = Calendar.second_of_day h m s \/
     Calendar.second_of_day h' m' s'
     = (Calendar.second_of_day h m s - 1)%Z).
Proof.
  intros Hv. unfold Calendar.valid_time in Hv.
  repeat (apply andb_prop in Hv; destruct Hv as [Hv ?]).
  repeat match goal with
         | H : (_ <=? _)%Z = true |- _ => apply Z.leb_le in H
         end.
  pose proof reads_back_all as Hall.
  apply forallb_range with (x := h) in Hall; [| lia].
  apply forallb_range with (x := m) in Hall; [| lia].
  apply forallb_range with (x := s) in Hall; [| lia].
  unfold Binary64.reads_back in Hall.
  destruct (Binary64.gettime_hms (Binary64.settime_TN h m s))
    as [[h' m'] s'].
  apply andb_prop in Hall. destruct Hall as [Hv' Hd].
  exists h', m', s'. split; [reflexivity |]. split; [exact Hv' |].
  apply orb_prop in Hd. destruct Hd as [Hd | Hd]; apply Z.eqb_eq in Hd.
  - left. lia.
  - right. lia.
Qed.

Lemma settime_gettime_on_doubles_witness :
  exists h' m' s' : Z,
    Binary64.gettime_hms (Binary64.settime_TN 12 30 30) = (h', m', s') /\
    Calendar.valid_time h' m' s' = true /\
    (Calendar.second_of_day h' m' s' = Calendar.second_of_day 12 30 30 \/
     Calendar.second_of_day h' m' s'
     = (Calendar.second_of_day 12 30 30 - 1)%Z).
Proof.
  apply (settime_gettime_on_doubles 12 30 30). reflexivity.
Defined.

(** Half past twelve and thirty seconds is read a second early, as 42875 of
    the 86400 times of a day are. *)
Example half_past_twelve :
  Binary64.gettime_hms (Binary64.settime_TN 12 30 30)
  = (12%Z, 30%Z, 29%Z) /\
  Binary64.early_readings = 42875%Z.
Proof. vm_compute. split; reflexivity. Qed.

(** A step of [1e-17] days is absorbed: [add] leaves the [DateTime] where it
    was. *)
Example add_absorbs_small_step :
  Binary64.add (100%Z, 0.25) 1e-17 = (100%Z, 0.25).
Proof. vm_compute. reflexivity. Qed.

(** On doubles the Kepler loop never reaches its [break] once the mean
    anomaly is a NaN, whatever the eccentricity, the starting value and
    the sine and cosine of the C library; and a NaN is what the mean
    anomaly is for an element set whose mean motion is read as zero: the
    drag coefficient [DC] is then an infinity, which the reduction of
    whole revolutions leaves a NaN. *)
Theorem kepler_loop_keeps_nan :
  (forall (sin cos : float -> float) (fuel : nat) (EC EA : float),
      Binary64.kepler sin cos fuel EC nan EA = None) /\
  Binary64.DC Binary64.iss_no_motion = neg_infinity /\
  Binary64.mean_anomaly Binary64.iss_no_motion Binary64.after_epoch = nan /\
  snd (Binary64.wrap nan) = nan.
Proof.
  split; [intros; apply kepler_nan |].
  vm_compute. repeat split.
Qed.

End Doubles.
